(** * cltkv1.dependency.stanza: the CLTK wrapper around Stanza

    A shallow embedding of [src/cltkv1/dependency/stanza.py] and the
    properties of its constructor and of the class-level cache.

    The wrapper is effectful: it tests files, prints a notice, calls the
    Stanza downloader and builds a Stanza pipeline.  Effects are threaded
    through a state-and-exception monad over a [World] that holds the file
    store and a log of every observable action, so that statements such as
    "the downloader is called exactly once" are statements about the log. *)

From Stdlib Require Import Ascii String List Bool Lia.
From stdpp Require Import base option list strings gmap.

Open Scope string_scope.
Open Scope list_scope.

(** ** Exceptions and results *)

(** The exception kinds that the module raises itself, plus [StanzaError]
    for whatever the external library raises on its own. *)
Inductive Exn : Type :=
| UnknownLanguageError (msg : string)
| UnimplementedLanguageError (msg : string)
| KeyError (arg : string)
| AttributeError (name : string)
| FileNotFoundError (msg : string)
| StanzaError (msg : string).

Inductive Result (A : Type) : Type :=
| Ok (a : A)
| Raise (e : Exn).
Arguments Ok {A} a.
Arguments Raise {A} e.

(** ** The external pipeline object *)

(** Keyword arguments of [stanza.Pipeline(...)] as the wrapper passes them. *)
Record PipelineArgs : Type := mkPipelineArgs {
  lang : string;
  dir : string;
  package : option string;
  processors : string;
  logging_level : string;
  use_gpu : bool;
  lemma_use_identity : bool
}.

(** The pipeline is opaque to the wrapper; it is identified here by the
    arguments it was built with. *)
Record PipelineObj : Type := mkPipeline { built_with : PipelineArgs }.

(** ** The world: file store, home directory and the log of effects *)

Inductive Event : Type :=
| EvFileExists (path : string) (found : bool)
| EvPrint (line : string)
| EvDownload (lang : string) (package : option string)
| EvSuppressStdout
| EvRestoreStdout
| EvPipeline (args : PipelineArgs).

Record World : Type := mkWorld {
  home : string;
  files : gset string;
  log : list Event
}.

Definition emit (e : Event) (w : World) : World :=
  {| home := home w; files := files w; log := log w ++ [e] |}.

Definition with_files (fs : gset string) (w : World) : World :=
  {| home := home w; files := fs; log := log w |}.

(** ** The Stanza library, as far as the wrapper consumes it

    [lang2lcode] and [default_treebanks] are the two tables imported from
    Stanza; [download] is [stanza.download] acting on the file store: it
    returns with a new store or raises, and when it raises the store is
    what [download_leftover] gives (the downloader writes as it goes, so a
    failed download need not leave the store as it found it); [Pipeline] is
    the constructor, which either fails or builds. *)
Record Stanza : Type := mkStanza {
  lang2lcode : gmap string string;
  default_treebanks : gmap string string;
  download : string -> option string -> gset string -> Result (gset string);
  download_leftover : string -> option string -> gset string -> gset string;
  Pipeline : PipelineArgs -> gset string -> option Exn
}.

(** ** The monad of the wrapper's methods *)

Definition M (A : Type) : Type := World -> Result A * World.

Definition ret {A} (a : A) : M A := fun w => (Ok a, w).

Definition raise {A} (e : Exn) : M A := fun w => (Raise e, w).

Definition bind {A B} (m : M A) (k : A -> M B) : M B :=
  fun w =>
    match m w with
    | (Ok a, w') => k a w'
    | (Raise e, w') => (Raise e, w')
    end.

Definition lift {A} (r : Result A) : M A := fun w => (r, w).

Notation "x <- m ;; k" := (bind m (fun x => k))
  (at level 100, m at next level, k at level 200, right associativity).
Notation "m ;;; k" := (bind m (fun _ => k))
  (at level 100, k at level 200, right associativity).

(** Pure part of a method: exceptions without effects. *)
Definition rbind {A B} (r : Result A) (k : A -> Result B) : Result B :=
  match r with
  | Ok a => k a
  | Raise e => Raise e
  end.

(** Reading an attribute of [self] that has not been assigned yet. *)
Definition attr {A} (name : string) (o : option A) : Result A :=
  match o with
  | Some a => Ok a
  | None => Raise (AttributeError name)
  end.

(** [print(line)] *)
Definition print (line : string) : M unit :=
  fun w => (Ok tt, emit (EvPrint line) w).

(** [s * n] on strings *)
Fixpoint str_repeat (s : string) (n : nat) : string :=
  match n with
  | O => ""
  | S n' => s +:+ str_repeat s n'
  end.

(** [os.path.expanduser]: a leading [~] followed by nothing or by [/] is
    replaced by the home directory; every other path is returned as it is
    (the [~user] form needs the password database and is never used by the
    wrapper). *)
Definition expanduser (path : string) : M string :=
  fun w =>
    match path with
    | String "~"%char rest =>
        match rest with
        | EmptyString => (Ok (home w), w)
        | String "/"%char _ => (Ok (home w +:+ rest), w)
        | _ => (Ok path, w)
        end
    | _ => (Ok path, w)
    end.

(** Modelled from the spec: [cltkv1.utils.file_exists], the toolkit's
    "file-existence check utility"; it answers whether a file is present at
    the path and changes nothing. *)
Definition file_exists (path : string) : M bool :=
  fun w =>
    let found := bool_decide (path ∈ files w) in
    (Ok found, emit (EvFileExists path found) w).

(** Modelled from the spec: [cltkv1.utils.suppress_stdout], the toolkit's
    "standard-output suppression utility (scoped, guarantees restoration on
    all exit paths)". *)
Definition suppress_stdout {A} (body : M A) : M A :=
  fun w =>
    let '(r, w') := body (emit EvSuppressStdout w) in
    (r, emit EvRestoreStdout w').

(** ** The wrapper object *)

(** Attributes of a [StanzaWrapper]; [None] in [wrapper_available],
    [stanza_code], [self_map_code_treebanks], [model_path] and [nlp] means:
    not assigned yet.  In [treebank], [None] is Python's [None].
    [self_map_code_treebanks] is the attribute [self.map_code_treebanks];
    the dictionary that the constructor assigns to it is
    [map_code_treebanks] below. *)
Record StanzaWrapper : Type := mkStanzaWrapper {
  language : string;
  treebank : option string;
  stanza_debug_level : string;
  wrapper_available : option bool;
  stanza_code : option string;
  self_map_code_treebanks : option (gmap string (list string));
  model_path : option string;
  nlp : option PipelineObj
}.

Definition set_treebank (self : StanzaWrapper) (v : option string) :=
  {| language := language self; treebank := v;
     stanza_debug_level := stanza_debug_level self;
     wrapper_available := wrapper_available self;
     stanza_code := stanza_code self;
     self_map_code_treebanks := self_map_code_treebanks self;
     model_path := model_path self;
     nlp := nlp self |}.

Definition set_wrapper_available (self : StanzaWrapper) (v : bool) :=
  {| language := language self; treebank := treebank self;
     stanza_debug_level := stanza_debug_level self;
     wrapper_available := Some v;
     stanza_code := stanza_code self;
     self_map_code_treebanks := self_map_code_treebanks self;
     model_path := model_path self;
     nlp := nlp self |}.

Definition set_stanza_code (self : StanzaWrapper) (v : string) :=
  {| language := language self; treebank := treebank self;
     stanza_debug_level := stanza_debug_level self;
     wrapper_available := wrapper_available self;
     stanza_code := Some v;
     self_map_code_treebanks := self_map_code_treebanks self;
     model_path := model_path self;
     nlp := nlp self |}.

Definition set_map_code_treebanks (self : StanzaWrapper)
    (v : gmap string (list string)) :=
  {| language := language self; treebank := treebank self;
     stanza_debug_level := stanza_debug_level self;
     wrapper_available := wrapper_available self;
     stanza_code := stanza_code self;
     self_map_code_treebanks := Some v;
     model_path := model_path self;
     nlp := nlp self |}.

Definition set_model_path (self : StanzaWrapper) (v : string) :=
  {| language := language self; treebank := treebank self;
     stanza_debug_level := stanza_debug_level self;
     wrapper_available := wrapper_available self;
     stanza_code := stanza_code self;
     self_map_code_treebanks := self_map_code_treebanks self;
     model_path := Some v;
     nlp := nlp self |}.

Definition set_nlp (self : StanzaWrapper) (v : PipelineObj) :=
  {| language := language self; treebank := treebank self;
     stanza_debug_level := stanza_debug_level self;
     wrapper_available := wrapper_available self;
     stanza_code := stanza_code self;
     self_map_code_treebanks := self_map_code_treebanks self;
     model_path := model_path self;
     nlp := Some v |}.

(** Truth value of an [Optional[str]]: [None] and the empty string are
    false. *)
Definition truthy (o : option string) : bool :=
  match o with
  | None => false
  | Some EmptyString => false
  | Some _ => true
  end.

(** String formatting of an [Optional[str]] inside a format string. *)
Definition fmt (o : option string) : string :=
  match o with
  | None => "None"
  | Some s => s
  end.

(** [self.map_langs_cltk_stanza], assigned before anything reads it *)
Definition map_langs_cltk_stanza : gmap string string :=
  list_to_map
    [ ("grc", "Ancient_Greek");
      ("lat", "Latin");
      ("chu", "Old_Church_Slavonic");
      ("fro", "Old_French");
      ("got", "Gothic") ].

(** The dictionary assigned to [self.map_code_treebanks] *)
Definition map_code_treebanks : gmap string (list string) :=
  list_to_map
    [ ("grc", ["proiel"; "perseus"]);
      ("la", ["perseus"; "proiel"; "ittb"]) ].

(** The languages of [map_langs_cltk_stanza]. *)
Definition supported_languages : list string :=
  ["grc"; "lat"; "chu"; "fro"; "got"].

(** ** The methods of [StanzaWrapper] *)

Section Wrapper.

Context (stanza : Stanza).

(** [stanza.download(lang=..., package=...)]: the call is logged, then the
    downloader acts on the file store and returns or raises. *)
Definition stanza_download (lang : string) (package : option string) : M unit :=
  fun w =>
    let w1 := emit (EvDownload lang package) w in
    match download stanza lang package (files w1) with
    | Ok fs => (Ok tt, with_files fs w1)
    | Raise e =>
        (Raise e, with_files (download_leftover stanza lang package (files w1)) w1)
    end.

(** [stanza.Pipeline(...)] *)
Definition stanza_Pipeline (args : PipelineArgs) : M PipelineObj :=
  fun w =>
    let w1 := emit (EvPipeline args) w in
    match Pipeline stanza args (files w1) with
    | None => (Ok (mkPipeline args), w1)
    | Some e => (Raise e, w1)
    end.

Definition is_wrapper_available (self : StanzaWrapper) : bool :=
  if decide (is_Some (map_langs_cltk_stanza !! language self))
  then true
  else false.

Definition _get_stanza_code (self : StanzaWrapper) : Result string :=
  match map_langs_cltk_stanza !! language self with
  | None =>
      Raise (KeyError "Somehow ``StanzaWrapper.language`` got renamed to something invalid. This should never happen.")
  | Some stanza_lang_name =>
      let stanza_lang_code := lang2lcode stanza in
      match stanza_lang_code !! stanza_lang_name with
      | Some code => Ok code
      | None => Raise (KeyError "The CLTK's map of ISO-to-Stanza is out of sync.")
      end
  end.

Definition _is_valid_treebank (self : StanzaWrapper) : Result bool :=
  rbind (attr "map_code_treebanks" (self_map_code_treebanks self)) (fun table =>
  rbind (attr "stanza_code" (stanza_code self)) (fun code =>
  match table !! code with
  | None => Raise (KeyError code)
  | Some possible_treebanks =>
      match treebank self with
      | Some t => if decide (t ∈ possible_treebanks) then Ok true else Ok false
      | None => Ok false
      end
  end)).

Definition _get_default_treebank (self : StanzaWrapper) : Result string :=
  let stanza_default_treebanks := default_treebanks stanza in
  rbind (attr "stanza_code" (stanza_code self)) (fun code =>
  match stanza_default_treebanks !! code with
  | Some t => Ok t
  | None => Raise (KeyError code)
  end).

Definition _is_model_present (self : StanzaWrapper) : M bool :=
  path <- lift (attr "model_path" (model_path self)) ;;
  found <- file_exists path ;;
  if found then ret true else ret false.

Definition download_notice : string :=
  "CLTK message: The part of the CLTK that you are using depends upon the Stanza NLP library (`stanza`). What follows are several question prompts coming from it. (More at: <https://github.com/stanza/stanza>.) Answer with defaults.".

Definition _download_model (self : StanzaWrapper) : M unit :=
  print "" ;;;
  print "" ;;;
  print (str_repeat "Α" 80) ;;;
  print "" ;;;
  print download_notice ;;;
  print "" ;;;
  print (str_repeat "Ω" 80) ;;;
  print "" ;;;
  print "" ;;;
  stanza_download (language self) (treebank self) ;;;
  path <- lift (attr "model_path" (model_path self)) ;;
  found <- file_exists path ;;
  if negb found
  then raise (FileNotFoundError
                ("Missing required models for ``stanza`` at ``" +:+ path +:+ "``."))
  else ret tt.

Definition _load_pipeline (self : StanzaWrapper) : M PipelineObj :=
  models_dir <- expanduser "~/stanza_resources/" ;;
  let '(processors, lemma_use_identity) :=
    if decide (language self = "fro")
    then ("tokenize,pos,lemma", true)
    else ("tokenize,mwt,pos,lemma,depparse", false) in
  code <- lift (attr "stanza_code" (stanza_code self)) ;;
  stanza_Pipeline
    {| lang := code;
       dir := models_dir;
       package := treebank self;
       processors := processors;
       logging_level := stanza_debug_level self;
       use_gpu := true;
       lemma_use_identity := lemma_use_identity |}.

(** The constructor.  [self] is threaded through the assignments in the
    order of the source. *)
Definition __init__ (a_language : string) (a_treebank : option string)
    (a_stanza_debug_level : string) : M StanzaWrapper :=
  let self :=
    {| language := a_language; treebank := a_treebank;
       stanza_debug_level := a_stanza_debug_level;
       wrapper_available := None; stanza_code := None;
       self_map_code_treebanks := None;
       model_path := None; nlp := None |} in
  let self := set_wrapper_available self (is_wrapper_available self) in
  if negb (default false (wrapper_available self))
  then raise (UnknownLanguageError
                ("Language '" +:+ language self
                 +:+ "' either not in scope for CLTK or not supported by Stanza."))
  else
    code <- lift (_get_stanza_code self) ;;
    let self := set_stanza_code self code in
    let self := set_map_code_treebanks self map_code_treebanks in
    self <- (if truthy (treebank self)
             then
               valid_treebank <- lift (_is_valid_treebank self) ;;
               if negb valid_treebank
               then raise (UnimplementedLanguageError
                             ("Invalid treebank '" +:+ fmt (treebank self)
                              +:+ "' for language '" +:+ language self +:+ "'."))
               else ret self
             else
               t <- lift (_get_default_treebank self) ;;
               ret (set_treebank self (Some t))) ;;
    path <- expanduser
              ("~/stanza_resources/" +:+ fmt (stanza_code self)
               +:+ "/tokenize/" +:+ fmt (treebank self) +:+ ".pt") ;;
    let self := set_model_path self path in
    present <- _is_model_present self ;;
    (if negb present then _download_model self else ret tt) ;;;
    pipeline <- suppress_stdout (_load_pipeline self) ;;
    ret (set_nlp self pipeline).

(** ** The class-level cache *)

(** Objects live in a store and are denoted by their index in it; two
    references are the same object exactly when they are equal. *)
Definition ref : Type := nat.

Record Process : Type := mkProcess {
  world : World;
  objects : list StanzaWrapper;
  nlps : gmap string ref
}.

(** [StanzaWrapper.get_nlp(language, treebank)].  The object built by
    [cls(language, treebank)] enters the store when the constructor
    returns; when the constructor raises nothing refers to it. *)
Definition get_nlp (a_language : string) (a_treebank : option string)
    (p : Process) : Result ref * Process :=
  match nlps p !! a_language with
  | Some r => (Ok r, p)
  | None =>
      match __init__ a_language a_treebank "ERROR" (world p) with
      | (Raise e, w') =>
          (Raise e, {| world := w'; objects := objects p; nlps := nlps p |})
      | (Ok self, w') =>
          let r := length (objects p) in
          (Ok r, {| world := w';
                    objects := objects p ++ [self];
                    nlps := <[a_language := r]> (nlps p) |})
      end
  end.

End Wrapper.

(** ** Parsing *)

Section Parse.

(** The annotated document is Stanza's own type, and calling the pipeline
    object on a text is Stanza's business: both are parameters. *)
Context {Document : Type}.
Context (call_pipeline : PipelineObj -> string -> M Document).

(** [StanzaWrapper.parse(text)] *)
Definition parse (self : StanzaWrapper) (text : string) : M Document :=
  pipeline <- lift (attr "nlp" (nlp self)) ;;
  parsed_text <- call_pipeline pipeline text ;;
  ret parsed_text.

End Parse.

(** ** A concrete library and world, for evaluation

    The entries of Stanza's two tables that the wrapper's five languages
    reach, a downloader that stores the tokenizer model under the language
    code it is given, and a pipeline constructor that always builds. *)

Definition sample_lang2lcode : gmap string string :=
  list_to_map
    [ ("Ancient_Greek", "grc");
      ("Latin", "la");
      ("Old_Church_Slavonic", "cu");
      ("Old_French", "fro");
      ("Gothic", "got") ].

Definition sample_default_treebanks : gmap string string :=
  list_to_map
    [ ("grc", "proiel");
      ("la", "ittb");
      ("cu", "proiel");
      ("fro", "srcmf");
      ("got", "proiel") ].

Definition sample_download (root : string) (lang : string)
    (package : option string) (fs : gset string) : Result (gset string) :=
  Ok ({[ root +:+ "/stanza_resources/" +:+ lang +:+ "/tokenize/"
         +:+ fmt package +:+ ".pt" ]} ∪ fs).

Definition sample_stanza : Stanza :=
  {| lang2lcode := sample_lang2lcode;
     default_treebanks := sample_default_treebanks;
     download := sample_download "/home/u";
     download_leftover := fun _ _ fs => fs;
     Pipeline := fun _ _ => None |}.

(** A fresh machine: nothing downloaded yet. *)
Definition fresh_world : World :=
  {| home := "/home/u"; files := ∅; log := [] |}.

(** A machine on which the Greek [proiel] model is installed. *)
Definition greek_world : World :=
  {| home := "/home/u";
     files := {[ "/home/u/stanza_resources/grc/tokenize/proiel.pt" ]};
     log := [] |}.

Definition fresh_process : Process :=
  {| world := fresh_world; objects := []; nlps := ∅ |}.

(** A pipeline call for evaluation: it answers with the language code and
    processors it was built with, followed by the text. *)
Definition sample_call (pipeline : PipelineObj) (text : string) : M string :=
  ret (lang (built_with pipeline) +:+ "|"
       +:+ processors (built_with pipeline) +:+ "|" +:+ text).

(** A library whose downloader fails after it has written its index. *)
Definition offline_stanza : Stanza :=
  {| lang2lcode := sample_lang2lcode;
     default_treebanks := sample_default_treebanks;
     download := fun _ _ _ => Raise (StanzaError "Connection refused");
     download_leftover :=
       fun _ _ fs => {[ "/home/u/stanza_resources/resources.json" ]} ∪ fs;
     Pipeline := fun _ _ => None |}.

(** A library whose tables stop at Greek and Latin. *)
Definition short_stanza : Stanza :=
  {| lang2lcode := list_to_map [("Ancient_Greek", "grc"); ("Latin", "la");
                                ("Gothic", "got")];
     default_treebanks := list_to_map [("grc", "proiel"); ("la", "ittb")];
     download := sample_download "/home/u";
     download_leftover := fun _ _ fs => fs;
     Pipeline := fun _ _ => None |}.

(** ** Vocabulary of the statements *)

(** The path of the tokenizer model for a Stanza code and a treebank. *)
Definition expected_path (w : World) (code t : string) : string :=
  home w +:+ "/stanza_resources/" +:+ code +:+ "/tokenize/" +:+ t +:+ ".pt".

(** What [_download_model] prints before it calls the downloader. *)
Definition notice_events : list Event :=
  [ EvPrint ""; EvPrint ""; EvPrint (str_repeat "Α" 80); EvPrint "";
    EvPrint download_notice; EvPrint ""; EvPrint (str_repeat "Ω" 80);
    EvPrint ""; EvPrint "" ].

(** Number of calls of the downloader in a log. *)
Fixpoint downloads (l : list Event) : nat :=
  match l with
  | [] => 0
  | EvDownload _ _ :: l' => S (downloads l')
  | _ :: l' => downloads l'
  end.

(** The arguments pass the constructor's checks: the language is in
    [map_langs_cltk_stanza], Stanza knows its name under [code], and the
    treebank is either given, non-empty and listed for [code], or absent
    (or empty) with [t] the default that Stanza records for [code]. *)
Inductive Validated (stanza : Stanza) (a_language : string)
  : option string -> string -> string -> Prop :=
| validated_given name code possible t :
    map_langs_cltk_stanza !! a_language = Some name ->
    lang2lcode stanza !! name = Some code ->
    map_code_treebanks !! code = Some possible ->
    t <> "" ->
    t ∈ possible ->
    Validated stanza a_language (Some t) code t
| validated_default name code a_treebank t :
    map_langs_cltk_stanza !! a_language = Some name ->
    lang2lcode stanza !! name = Some code ->
    truthy a_treebank = false ->
    default_treebanks stanza !! code = Some t ->
    Validated stanza a_language a_treebank code t.

(** The object as it stands when the model check starts. *)
Definition checked_self (w : World) (a_language a_stanza_debug_level code t : string)
  : StanzaWrapper :=
  {| language := a_language; treebank := Some t;
     stanza_debug_level := a_stanza_debug_level;
     wrapper_available := Some true; stanza_code := Some code;
     self_map_code_treebanks := Some map_code_treebanks;
     model_path := Some (expected_path w code t); nlp := None |}.

(** The arguments that [_load_pipeline] hands to [stanza.Pipeline]. *)
Definition pipeline_args (w : World) (self : StanzaWrapper) (code : string)
  : PipelineArgs :=
  {| lang := code;
     dir := home w +:+ "/stanza_resources/";
     package := treebank self;
     processors := if decide (language self = "fro")
                   then "tokenize,pos,lemma"
                   else "tokenize,mwt,pos,lemma,depparse";
     logging_level := stanza_debug_level self;
     use_gpu := true;
     lemma_use_identity := if decide (language self = "fro") then true else false |}.

(** The last stage of the constructor: the pipeline is built with stdout
    suppressed, and stored in [self.nlp]. *)
Definition build_stage (stanza : Stanza) (self : StanzaWrapper) (code : string) (w : World)
  : Result StanzaWrapper * World :=
  let args := pipeline_args w self code in
  (match Pipeline stanza args (files w) with
   | None => Ok (set_nlp self (mkPipeline args))
   | Some e => Raise e
   end,
   {| home := home w; files := files w;
      log := log w ++ [EvSuppressStdout; EvPipeline args; EvRestoreStdout] |}).

(** The world once the model was found absent, the notice printed and the
    downloader called (before the downloader has acted). *)
Definition download_called (w : World) (a_language code t : string) : World :=
  {| home := home w; files := files w;
     log := log w ++ EvFileExists (expected_path w code t) false
                  :: notice_events ++ [EvDownload a_language (Some t)] |}.

(** The world after the downloader raised. *)
Definition download_failed (stanza : Stanza) (w : World)
    (a_language code t : string) : World :=
  with_files (download_leftover stanza a_language (Some t) (files w))
    (download_called w a_language code t).

(** The world after the downloader returned with file store [fs] and the
    model was looked for again. *)
Definition download_checked (w : World) (a_language code t : string)
    (fs : gset string) : World :=
  {| home := home w; files := fs;
     log := log (download_called w a_language code t)
            ++ [EvFileExists (expected_path w code t)
                  (bool_decide (expected_path w code t ∈ fs))] |}.

Definition missing_models (path : string) : Exn :=
  FileNotFoundError
    ("Missing required models for ``stanza`` at ``" +:+ path +:+ "``.").

(** The exceptions with which the constructor turns its arguments down. *)
Definition rejection (e : Exn) : Prop :=
  match e with
  | UnknownLanguageError _ | UnimplementedLanguageError _ | KeyError _ => True
  | _ => False
  end.

(** Number of calls of the pipeline constructor in a log. *)
Fixpoint pipeline_calls (l : list Event) : nat :=
  match l with
  | [] => 0
  | EvPipeline _ :: l' => S (pipeline_calls l')
  | _ :: l' => pipeline_calls l'
  end.

(** The five ways in which a run of the constructor ends. *)
Inductive InitRun (stanza : Stanza) (a_language : string)
    (a_treebank : option string) (lvl : string) (w : World)
  : Result StanzaWrapper * World -> Prop :=
| run_rejected e :
    rejection e ->
    InitRun stanza a_language a_treebank lvl w (Raise e, w)
| run_present code t :
    Validated stanza a_language a_treebank code t ->
    expected_path w code t ∈ files w ->
    InitRun stanza a_language a_treebank lvl w
      (build_stage stanza (checked_self w a_language lvl code t) code
         (emit (EvFileExists (expected_path w code t) true) w))
| run_download_raises code t e :
    Validated stanza a_language a_treebank code t ->
    expected_path w code t ∉ files w ->
    download stanza a_language (Some t) (files w) = Raise e ->
    InitRun stanza a_language a_treebank lvl w
      (Raise e, download_failed stanza w a_language code t)
| run_still_missing code t fs :
    Validated stanza a_language a_treebank code t ->
    expected_path w code t ∉ files w ->
    download stanza a_language (Some t) (files w) = Ok fs ->
    expected_path w code t ∉ fs ->
    InitRun stanza a_language a_treebank lvl w
      (Raise (missing_models (expected_path w code t)),
       download_checked w a_language code t fs)
| run_downloaded code t fs :
    Validated stanza a_language a_treebank code t ->
    expected_path w code t ∉ files w ->
    download stanza a_language (Some t) (files w) = Ok fs ->
    expected_path w code t ∈ fs ->
    InitRun stanza a_language a_treebank lvl w
      (build_stage stanza (checked_self w a_language lvl code t) code
         (download_checked w a_language code t fs)).

(** Every cached reference denotes a fully built object of its language. *)
Definition cache_wf (p : Process) : Prop :=
  forall (l : string) (r : ref),
    nlps p !! l = Some r ->
    exists self,
      objects p !! r = Some self
      /\ language self = l
      /\ is_Some (nlp self).

(** The process after a series of [get_nlp] calls, results dropped. *)
Definition get_nlp_calls (stanza : Stanza)
    (calls : list (string * option string)) (p : Process) : Process :=
  fold_left (fun q c => snd (get_nlp stanza (fst c) (snd c) q)) calls p.

(** ** Basic facts *)

Lemma truthy_Some_nonempty (t : string) : t <> "" -> truthy (Some t) = true.
Proof. destruct t; [congruence | reflexivity]. Qed.

Lemma map_langs_unsupported (l : string) :
  l ∉ supported_languages -> map_langs_cltk_stanza !! l = None.
Proof.
  intros H. unfold map_langs_cltk_stanza.
  apply not_elem_of_list_to_map_1. exact H.
Qed.

(** Worlds are compared after their logs are flattened. *)
Ltac norm_world :=
  unfold emit, with_files; cbn [home files log];
  rewrite <- ?app_assoc; try reflexivity.

Section Facts.

Context (stanza : Stanza).

Lemma load_pipeline_eq (self : StanzaWrapper) (code : string) (w : World) :
  stanza_code self = Some code ->
  _load_pipeline stanza self w
  = stanza_Pipeline stanza (pipeline_args w self code) w.
Proof.
  intros Hc. unfold _load_pipeline, bind, expanduser, lift, pipeline_args.
  cbn [fst snd]. rewrite Hc. cbn [attr].
  destruct (decide (language self = "fro")); reflexivity.
Qed.

(** The constructor on validated arguments: what is left is the model
    check, the download if needed, and the pipeline. *)
Lemma init_validated (a_language : string) (a_treebank : option string)
    (lvl code t : string) (w : World) :
  Validated stanza a_language a_treebank code t ->
  __init__ stanza a_language a_treebank lvl w
  = (let self := checked_self w a_language lvl code t in
     present <- _is_model_present self ;;
     (if negb present then _download_model stanza self else ret tt) ;;;
     pipeline <- suppress_stdout (_load_pipeline stanza self) ;;
     ret (set_nlp self pipeline)) w.
Proof.
  intros Hv. unfold __init__, is_wrapper_available, _get_stanza_code,
    _is_valid_treebank, _get_default_treebank.
  cbn [language treebank wrapper_available stanza_code set_wrapper_available
       set_stanza_code set_map_code_treebanks
       self_map_code_treebanks stanza_debug_level model_path nlp].
  destruct Hv as [name code possible t Hn Hc Hp Ht Hin
                 | name code a_treebank t Hn Hc Htr Hd].
  - rewrite Hn. rewrite decide_True by eauto. cbn [default negb].
    unfold bind at 1. unfold lift at 1. rewrite Hc.
    cbn [language treebank wrapper_available stanza_code set_wrapper_available
       set_stanza_code set_map_code_treebanks
       self_map_code_treebanks stanza_debug_level model_path nlp].
    rewrite (truthy_Some_nonempty t Ht).
    unfold bind at 1. unfold bind at 1. unfold lift at 1.
    cbn [rbind attr]. rewrite Hp. rewrite decide_True by exact Hin.
    cbn [negb]. unfold ret at 1.
    unfold bind at 1. reflexivity.
  - rewrite Hn. rewrite decide_True by eauto. cbn [default negb].
    unfold bind at 1. unfold lift at 1. rewrite Hc.
    cbn [language treebank wrapper_available stanza_code set_wrapper_available
       set_stanza_code set_map_code_treebanks
       self_map_code_treebanks stanza_debug_level model_path nlp].
    rewrite Htr.
    unfold bind at 1. unfold bind at 1. unfold lift at 1.
    cbn [rbind attr]. rewrite Hd. unfold ret at 1.
    unfold bind at 1. reflexivity.
Qed.

Lemma build_stage_eq (self : StanzaWrapper) (code : string) (w : World) :
  stanza_code self = Some code ->
  (pipeline <- suppress_stdout (_load_pipeline stanza self) ;;
   ret (set_nlp self pipeline)) w
  = build_stage stanza self code w.
Proof.
  intros Hc. unfold bind, suppress_stdout, build_stage.
  rewrite (load_pipeline_eq self code _ Hc).
  unfold stanza_Pipeline, ret, emit. cbn [home files log pipeline_args].
  destruct (Pipeline stanza _ (files w)); cbn [home files log];
    rewrite <- !app_assoc; reflexivity.
Qed.

Lemma init_model_present (a_language : string) (a_treebank : option string)
    (lvl code t : string) (w : World) :
  Validated stanza a_language a_treebank code t ->
  expected_path w code t ∈ files w ->
  __init__ stanza a_language a_treebank lvl w
  = build_stage stanza (checked_self w a_language lvl code t) code
      (emit (EvFileExists (expected_path w code t) true) w).
Proof.
  intros Hv Hin. rewrite (init_validated _ _ lvl _ _ w Hv).
  cbv zeta. unfold bind at 1. unfold _is_model_present.
  unfold bind at 1. unfold lift at 1. cbn [attr model_path checked_self].
  unfold bind at 1. unfold file_exists at 1.
  rewrite bool_decide_eq_true_2 by exact Hin.
  unfold ret at 1. cbn [negb]. unfold bind at 1. unfold ret at 1.
  apply build_stage_eq. reflexivity.
Qed.

Lemma download_model_eq (self : StanzaWrapper) (path : string) (w : World) :
  model_path self = Some path ->
  _download_model stanza self w
  = let w1 := {| home := home w; files := files w;
                 log := log w ++ notice_events
                        ++ [EvDownload (language self) (treebank self)] |} in
    match download stanza (language self) (treebank self) (files w) with
    | Raise e =>
        (Raise e,
         with_files
           (download_leftover stanza (language self) (treebank self) (files w))
           w1)
    | Ok fs =>
        let found := bool_decide (path ∈ fs) in
        (if found then Ok tt else Raise (missing_models path),
         {| home := home w; files := fs;
            log := log w1 ++ [EvFileExists path found] |})
    end.
Proof.
  intros Hp. unfold _download_model.
  repeat (unfold bind at 1; unfold print at 1).
  unfold bind at 1. unfold stanza_download.
  cbn [files emit home log].
  destruct (download stanza (language self) (treebank self) (files w))
    as [fs | e].
  - unfold bind at 1. unfold lift at 1. rewrite Hp. cbn [attr].
    unfold bind at 1. unfold file_exists at 1. cbn [files with_files emit].
    destruct (bool_decide (path ∈ fs)); cbn [negb];
      unfold raise, ret, missing_models, notice_events; cbv zeta; norm_world.
  - cbv zeta. unfold notice_events. norm_world.
Qed.

Lemma init_model_absent (a_language : string) (a_treebank : option string)
    (lvl code t : string) (w : World) :
  Validated stanza a_language a_treebank code t ->
  expected_path w code t ∉ files w ->
  __init__ stanza a_language a_treebank lvl w
  = match download stanza a_language (Some t) (files w) with
    | Raise e => (Raise e, download_failed stanza w a_language code t)
    | Ok fs =>
        if bool_decide (expected_path w code t ∈ fs)
        then build_stage stanza (checked_self w a_language lvl code t) code
               (download_checked w a_language code t fs)
        else (Raise (missing_models (expected_path w code t)),
              download_checked w a_language code t fs)
    end.
Proof.
  intros Hv Hnin. rewrite (init_validated _ _ lvl _ _ w Hv).
  cbv zeta. unfold bind at 1. unfold _is_model_present.
  unfold bind at 1. unfold lift at 1.
  change (model_path (checked_self w a_language lvl code t))
    with (Some (expected_path w code t)). cbn [attr].
  unfold bind at 1. unfold file_exists at 1.
  rewrite bool_decide_eq_false_2 by exact Hnin.
  unfold ret at 1. cbn [negb]. unfold bind at 1.
  rewrite (download_model_eq (checked_self w a_language lvl code t)
             (expected_path w code t) _ eq_refl).
  change (language (checked_self w a_language lvl code t)) with a_language.
  change (treebank (checked_self w a_language lvl code t)) with (Some t).
  cbn [files emit home log]. cbv zeta.
  destruct (download stanza a_language (Some t) (files w)) as [fs | e].
  - unfold download_checked, download_called. cbn [home files log].
    destruct (bool_decide (expected_path w code t ∈ fs)).
    + rewrite (build_stage_eq (checked_self w a_language lvl code t) code _ eq_refl).
      norm_world.
    + norm_world.
  - unfold download_failed, download_called. norm_world.
Qed.

End Facts.

Lemma downloads_app (l1 l2 : list Event) :
  downloads (l1 ++ l2) = downloads l1 + downloads l2.
Proof.
  induction l1 as [| e l1 IH]; [reflexivity |].
  destruct e; cbn [app downloads]; rewrite IH; reflexivity.
Qed.

Lemma downloads_zero_not_in (l : list Event) (c : string) (pk : option string) :
  downloads l = 0 -> EvDownload c pk ∉ l.
Proof.
  induction l as [| e l IH]; intros Hz Hin.
  - inversion Hin.
  - apply elem_of_cons in Hin as [Heq | Hin].
    + subst e. cbn in Hz. discriminate.
    + destruct e; cbn in Hz; try discriminate; exact (IH Hz Hin).
Qed.

Lemma Validated_codes (stanza : Stanza) (a_language : string)
    (a_treebank : option string) (code t : string) :
  Validated stanza a_language a_treebank code t ->
  exists name, map_langs_cltk_stanza !! a_language = Some name
               /\ lang2lcode stanza !! name = Some code.
Proof. intros [name ? ? ? Hn Hc _ _ _ | name ? ? ? Hn Hc _ _]; eauto. Qed.

Lemma build_stage_log (stanza : Stanza) (self : StanzaWrapper) (code : string)
    (w : World) :
  log (snd (build_stage stanza self code w))
  = log w ++ [EvSuppressStdout; EvPipeline (pipeline_args w self code);
              EvRestoreStdout].
Proof. reflexivity. Qed.

Lemma build_stage_ok (stanza : Stanza) (self self' : StanzaWrapper)
    (code : string) (w : World) :
  fst (build_stage stanza self code w) = Ok self' ->
  self' = set_nlp self (mkPipeline (pipeline_args w self code)).
Proof.
  unfold build_stage. cbn [fst].
  destruct (Pipeline stanza _ _); congruence.
Qed.

(** The constructor on validated arguments starts with the model check at
    the expected path, and an object it returns carries the resolved
    attributes. *)
Lemma init_validated_shape (stanza : Stanza) (a_language : string)
    (a_treebank : option string) (lvl code t : string) (w : World) :
  Validated stanza a_language a_treebank code t ->
  (exists found rest,
      log (snd (__init__ stanza a_language a_treebank lvl w))
      = log w ++ EvFileExists (expected_path w code t) found :: rest)
  /\ (forall self,
        fst (__init__ stanza a_language a_treebank lvl w) = Ok self ->
        exists args,
          self = set_nlp (checked_self w a_language lvl code t) (mkPipeline args)).
Proof.
  intros Hv.
  destruct (decide (expected_path w code t ∈ files w)) as [Hin | Hnin].
  - rewrite (init_model_present stanza _ _ lvl _ _ w Hv Hin). split.
    + rewrite build_stage_log. cbn [log emit]. rewrite <- app_assoc.
      eexists _, _. reflexivity.
    + intros self Hs. apply build_stage_ok in Hs. eauto.
  - rewrite (init_model_absent stanza _ _ lvl _ _ w Hv Hnin).
    destruct (download stanza a_language (Some t) (files w)) as [fs | e].
    + destruct (bool_decide (expected_path w code t ∈ fs)); split.
      * rewrite build_stage_log. unfold download_checked, download_called.
        cbn [log]. rewrite <- !app_assoc. eexists _, _. reflexivity.
      * intros self Hs. apply build_stage_ok in Hs. eauto.
      * unfold download_checked, download_called.
        cbn [log snd]. rewrite <- !app_assoc. eexists _, _. reflexivity.
      * cbn [fst]. discriminate.
    + split.
      * unfold download_failed, download_called, with_files. cbn [log snd]. eexists _, _. reflexivity.
      * cbn [fst]. discriminate.
Qed.

(** [Validated] is exactly "the constructor gets past its checks": on
    arguments that are not validated it raises and leaves the world as it
    found it. *)
Lemma init_validation_cases (stanza : Stanza) (a_language : string)
    (a_treebank : option string) (lvl : string) (w : World) :
  (exists code t, Validated stanza a_language a_treebank code t)
  \/ (exists e,
        rejection e
        /\ __init__ stanza a_language a_treebank lvl w = (Raise e, w)).
Proof.
  destruct (map_langs_cltk_stanza !! a_language) as [name |] eqn:Hn.
  2: { right. eexists. split; cycle 1.
       unfold __init__, is_wrapper_available.
       cbn [language wrapper_available set_wrapper_available].
       rewrite Hn. rewrite decide_False by (intros [x Hx]; discriminate).
       reflexivity. exact I. }
  destruct (lang2lcode stanza !! name) as [code |] eqn:Hc.
  2: { right. eexists. split; cycle 1.
       unfold __init__, is_wrapper_available, _get_stanza_code.
       cbn [language wrapper_available set_wrapper_available].
       rewrite Hn. rewrite decide_True by eauto. cbn [default negb].
       unfold bind at 1. unfold lift at 1. rewrite Hc. reflexivity. exact I. }
  destruct (truthy a_treebank) eqn:Htr.
  - destruct a_treebank as [t |]; [| discriminate].
    assert (Ht : t <> "") by (intros ->; discriminate).
    destruct (map_code_treebanks !! code) as [possible |] eqn:Hp.
    + destruct (decide (t ∈ possible)) as [Hin | Hnin].
      * left. exists code, t. eapply validated_given; eauto.
      * right. eexists. split; cycle 1.
        unfold __init__, is_wrapper_available, _get_stanza_code,
          _is_valid_treebank.
        cbn [language treebank wrapper_available stanza_code
             set_wrapper_available set_stanza_code set_map_code_treebanks
       self_map_code_treebanks].
        rewrite Hn. rewrite decide_True by eauto. cbn [default negb].
        unfold bind at 1. unfold lift at 1. rewrite Hc.
        cbn [language treebank wrapper_available stanza_code set_stanza_code set_map_code_treebanks
       self_map_code_treebanks].
        rewrite Htr. unfold bind at 1. unfold bind at 1. unfold lift at 1.
        cbn [rbind attr]. rewrite Hp. rewrite decide_False by exact Hnin.
        reflexivity. exact I.
    + right. eexists. split; cycle 1.
      unfold __init__, is_wrapper_available, _get_stanza_code,
        _is_valid_treebank.
      cbn [language treebank wrapper_available stanza_code
           set_wrapper_available set_stanza_code set_map_code_treebanks
       self_map_code_treebanks].
      rewrite Hn. rewrite decide_True by eauto. cbn [default negb].
      unfold bind at 1. unfold lift at 1. rewrite Hc.
      cbn [language treebank wrapper_available stanza_code set_stanza_code set_map_code_treebanks
       self_map_code_treebanks].
      rewrite Htr. unfold bind at 1. unfold bind at 1. unfold lift at 1.
      cbn [rbind attr]. rewrite Hp. reflexivity. exact I.
  - destruct (default_treebanks stanza !! code) as [t |] eqn:Hd.
    + left. exists code, t. eapply validated_default; eauto.
    + right. eexists. split; cycle 1.
      unfold __init__, is_wrapper_available, _get_stanza_code,
        _get_default_treebank.
      cbn [language treebank wrapper_available stanza_code
           set_wrapper_available set_stanza_code set_map_code_treebanks
       self_map_code_treebanks].
      rewrite Hn. rewrite decide_True by eauto. cbn [default negb].
      unfold bind at 1. unfold lift at 1. rewrite Hc.
      cbn [language treebank wrapper_available stanza_code set_stanza_code set_map_code_treebanks
       self_map_code_treebanks].
      rewrite Htr. unfold bind at 1. unfold bind at 1. unfold lift at 1.
      cbn [rbind attr]. rewrite Hd. reflexivity. exact I.
Qed.

(** With the sample tables every supported language is validated when no
    treebank is given. *)
Lemma sample_defaults_validated (l : string) :
  l ∈ supported_languages ->
  exists code t, Validated sample_stanza l None code t.
Proof.
  intros Hin. unfold supported_languages in Hin.
  repeat (apply elem_of_cons in Hin as [-> | Hin]);
    [ exists "grc", "proiel" | exists "la", "ittb" | exists "cu", "proiel"
    | exists "fro", "srcmf" | exists "got", "proiel" | inversion Hin ];
    eapply validated_default; reflexivity.
Qed.

(** The empty string in place of a treebank is read as no treebank. *)
Lemma init_empty_as_none (stanza : Stanza) (a_language lvl : string)
    (w : World) :
  __init__ stanza a_language (Some "") lvl w
  = __init__ stanza a_language None lvl w.
Proof.
  destruct (map_langs_cltk_stanza !! a_language) as [name |] eqn:Hn.
  - destruct (lang2lcode stanza !! name) as [code |] eqn:Hc.
    + destruct (default_treebanks stanza !! code) as [t |] eqn:Hd.
      * assert (Hv : forall tb, truthy tb = false ->
                  Validated stanza a_language tb code t)
          by (intros tb Htb; eapply validated_default; eauto).
        rewrite (init_validated stanza _ _ lvl _ _ w (Hv (Some "") eq_refl)).
        rewrite (init_validated stanza _ _ lvl _ _ w (Hv None eq_refl)).
        reflexivity.
      * unfold __init__, is_wrapper_available, _get_stanza_code,
          _get_default_treebank.
        cbn [language treebank wrapper_available stanza_code
             set_wrapper_available set_stanza_code set_map_code_treebanks
       self_map_code_treebanks].
        rewrite Hn. rewrite !decide_True by eauto. cbn [default negb].
        unfold bind at 1. unfold bind at 3. unfold lift at 1.
        unfold lift at 3. rewrite Hc.
        cbn [language treebank wrapper_available stanza_code set_stanza_code set_map_code_treebanks
       self_map_code_treebanks
             truthy].
        unfold bind, lift. cbn [rbind attr]. rewrite Hd. reflexivity.
    + unfold __init__, is_wrapper_available, _get_stanza_code.
      cbn [language wrapper_available set_wrapper_available].
      rewrite Hn. rewrite !decide_True by eauto. cbn [default negb].
      unfold bind, lift. rewrite Hc. reflexivity.
  - unfold __init__, is_wrapper_available.
    cbn [language wrapper_available set_wrapper_available].
    rewrite Hn. rewrite !decide_False by (intros [x Hx]; discriminate).
    reflexivity.
Qed.

(** ** Validation of the arguments *)

(** C1 (amended).  When the language resolves to a Stanza code that has an
    entry in [map_code_treebanks] (the codes [grc] and [la]) and the
    treebank is a non-empty string outside that entry's list, the
    constructor raises [UnimplementedLanguageError], and the world is
    returned untouched: no model check, notice or download came before.
    The empty string is not checked against the list: the constructor
    treats it as no treebank given. *)
Theorem invalid_treebank_unimplemented (stanza : Stanza)
    (a_language t lvl name code : string) (possible : list string) (w : World) :
  map_langs_cltk_stanza !! a_language = Some name ->
  lang2lcode stanza !! name = Some code ->
  map_code_treebanks !! code = Some possible ->
  t <> "" ->
  t ∉ possible ->
  __init__ stanza a_language (Some t) lvl w
  = (Raise (UnimplementedLanguageError
              ("Invalid treebank '" +:+ t +:+ "' for language '"
               +:+ a_language +:+ "'.")),
     w)
  /\ __init__ stanza a_language (Some "") lvl w
     = __init__ stanza a_language None lvl w.
Proof.
  intros Hn Hc Hp Ht Hnin. split; [| apply init_empty_as_none].
  unfold __init__, is_wrapper_available, _get_stanza_code, _is_valid_treebank.
  cbn [language treebank wrapper_available stanza_code set_wrapper_available
       set_stanza_code set_map_code_treebanks self_map_code_treebanks].
  rewrite Hn. rewrite decide_True by eauto. cbn [default negb].
  unfold bind at 1. unfold lift at 1. rewrite Hc.
  cbn [language treebank wrapper_available stanza_code set_stanza_code
       set_map_code_treebanks self_map_code_treebanks].
  rewrite (truthy_Some_nonempty t Ht).
  unfold bind at 1. unfold bind at 1. unfold lift at 1.
  cbn [rbind attr]. rewrite Hp. rewrite decide_False by exact Hnin.
  reflexivity.
Qed.

Lemma invalid_treebank_unimplemented_witness :
  map_langs_cltk_stanza !! "lat" = Some "Latin"
  /\ lang2lcode sample_stanza !! "Latin" = Some "la"
  /\ map_code_treebanks !! "la" = Some ["perseus"; "proiel"; "ittb"]
  /\ "xxx" <> ""
  /\ ("xxx" ∉ ["perseus"; "proiel"; "ittb"])
  /\ __init__ sample_stanza "lat" (Some "xxx") "INFO" fresh_world
     = (Raise (UnimplementedLanguageError
                 "Invalid treebank 'xxx' for language 'lat'."),
        fresh_world)
  /\ __init__ sample_stanza "lat" (Some "") "INFO" fresh_world
     = __init__ sample_stanza "lat" None "INFO" fresh_world.
Proof.
  assert (H1 : map_langs_cltk_stanza !! "lat" = Some "Latin") by reflexivity.
  assert (H2 : lang2lcode sample_stanza !! "Latin" = Some "la") by reflexivity.
  assert (H3 : map_code_treebanks !! "la" = Some ["perseus"; "proiel"; "ittb"])
    by reflexivity.
  assert (H4 : "xxx" <> "") by discriminate.
  assert (H5 : "xxx" ∉ ["perseus"; "proiel"; "ittb"]) by compute_done.
  refine (conj H1 (conj H2 (conj H3 (conj H4 (conj H5 _))))).
  exact (invalid_treebank_unimplemented sample_stanza "lat" "xxx" "INFO"
           "Latin" "la" _ fresh_world H1 H2 H3 H4 H5).
Defined.

(** C1 (as stated) fails.  Old Church Slavonic is a supported language and
    [xxx] is no treebank of it, yet the constructor raises [KeyError]: its
    Stanza code [cu] has no entry in [map_code_treebanks].  And for Greek
    the empty string, which is not one of its treebanks, is taken as "no
    treebank given" and construction succeeds with the default. *)
Lemma invalid_treebank_counterexample :
  ("chu" ∈ supported_languages
   /\ fst (__init__ sample_stanza "chu" (Some "xxx") "ERROR" fresh_world)
      = Raise (KeyError "cu"))
  /\ ("grc" ∈ supported_languages
      /\ map_code_treebanks !! "grc" = Some ["proiel"; "perseus"]
      /\ ("" ∉ ["proiel"; "perseus"])
      /\ (treebank <$> match fst (__init__ sample_stanza "grc" (Some "") "ERROR"
                                    greek_world) with
                       | Ok self => Some self
                       | Raise _ => None
                       end)
         = Some (Some "proiel")).
Proof.
  split; [split | split; [| split; [| split]]].
  - compute_done.
  - vm_compute. reflexivity.
  - compute_done.
  - reflexivity.
  - compute_done.
  - vm_compute. reflexivity.
Qed.

(** C3.  A language outside the five of [map_langs_cltk_stanza] makes the
    constructor raise [UnknownLanguageError], whatever the treebank
    argument, and nothing else happens. *)
Theorem unknown_language_raises (stanza : Stanza) (a_language : string)
    (a_treebank : option string) (lvl : string) (w : World) :
  a_language ∉ supported_languages ->
  __init__ stanza a_language a_treebank lvl w
  = (Raise (UnknownLanguageError
              ("Language '" +:+ a_language
               +:+ "' either not in scope for CLTK or not supported by Stanza.")),
     w).
Proof.
  intros Hnin. unfold __init__, is_wrapper_available.
  cbn [language wrapper_available set_wrapper_available].
  rewrite (map_langs_unsupported _ Hnin).
  rewrite decide_False by (intros [x Hx]; discriminate).
  reflexivity.
Qed.

Lemma unknown_language_raises_witness :
  ("xxx" ∉ supported_languages)
  /\ __init__ sample_stanza "xxx" (Some "proiel") "INFO" fresh_world
     = (Raise (UnknownLanguageError
                 "Language 'xxx' either not in scope for CLTK or not supported by Stanza."),
        fresh_world).
Proof.
  assert (H : "xxx" ∉ supported_languages) by compute_done.
  split; [exact H |].
  exact (unknown_language_raises sample_stanza "xxx" (Some "proiel") "INFO"
           fresh_world H).
Defined.

(** ** The model check and the download *)

(** C4.  On validated arguments with the model file absent, the constructor
    calls the downloader exactly once, whatever the downloader does; and
    when the downloader returns with the file still absent, the constructor
    raises [FileNotFoundError] right after the second look: the log ends
    there, with no second download and no pipeline. *)
Theorem absent_model_one_download (stanza : Stanza) (a_language : string)
    (a_treebank : option string) (lvl code t : string) (w : World) :
  Validated stanza a_language a_treebank code t ->
  expected_path w code t ∉ files w ->
  downloads (log (snd (__init__ stanza a_language a_treebank lvl w)))
  = S (downloads (log w))
  /\ (forall fs,
        download stanza a_language (Some t) (files w) = Ok fs ->
        expected_path w code t ∉ fs ->
        __init__ stanza a_language a_treebank lvl w
        = (Raise (FileNotFoundError
                    ("Missing required models for ``stanza`` at ``"
                     +:+ expected_path w code t +:+ "``.")),
           {| home := home w; files := fs;
              log := log w
                     ++ EvFileExists (expected_path w code t) false
                        :: notice_events
                     ++ [EvDownload a_language (Some t);
                         EvFileExists (expected_path w code t) false] |})).
Proof.
  intros Hv Hnin. rewrite (init_model_absent stanza _ _ lvl _ _ w Hv Hnin).
  split.
  - destruct (download stanza a_language (Some t) (files w)) as [fs | e].
    + destruct (bool_decide (expected_path w code t ∈ fs)).
      * rewrite build_stage_log. unfold download_checked, download_called.
        cbn [log]. rewrite !downloads_app. cbn. lia.
      * unfold download_checked, download_called. cbn [log snd].
        rewrite !downloads_app. cbn. lia.
    + unfold download_failed, download_called, with_files. cbn [log snd]. rewrite !downloads_app. cbn. lia.
  - intros fs Hd Hfs. rewrite Hd.
    rewrite bool_decide_eq_false_2 by exact Hfs.
    unfold missing_models, download_checked, download_called. cbn [log].
    rewrite bool_decide_eq_false_2 by exact Hfs.
    rewrite <- !app_assoc. reflexivity.
Qed.

(** C5.  On validated arguments with the model file present, the
    constructor goes from the model check straight to the pipeline: the log
    grows by the check, the suppression of stdout, the pipeline call and
    the restoration; nothing is printed, the downloader is not called and
    the file store is unchanged. *)
Theorem present_model_no_download (stanza : Stanza) (a_language : string)
    (a_treebank : option string) (lvl code t : string) (w : World) :
  Validated stanza a_language a_treebank code t ->
  expected_path w code t ∈ files w ->
  exists args,
    snd (__init__ stanza a_language a_treebank lvl w)
    = {| home := home w; files := files w;
         log := log w ++ [EvFileExists (expected_path w code t) true;
                          EvSuppressStdout; EvPipeline args;
                          EvRestoreStdout] |}
    /\ fst (__init__ stanza a_language a_treebank lvl w)
       = match Pipeline stanza args (files w) with
         | None => Ok (set_nlp (checked_self w a_language lvl code t)
                         (mkPipeline args))
         | Some e => Raise e
         end.
Proof.
  intros Hv Hin. rewrite (init_model_present stanza _ _ lvl _ _ w Hv Hin).
  eexists. unfold build_stage. cbn [fst snd emit home files log].
  rewrite <- app_assoc. split; reflexivity.
Qed.

Lemma absent_model_one_download_witness :
  Validated sample_stanza "lat" (Some "perseus") "la" "perseus"
  /\ (expected_path fresh_world "la" "perseus" ∉ files fresh_world)
  /\ download sample_stanza "lat" (Some "perseus") (files fresh_world)
     = Ok ({[ "/home/u/stanza_resources/lat/tokenize/perseus.pt" ]} ∪ ∅)
  /\ downloads
       (log (snd (__init__ sample_stanza "lat" (Some "perseus") "INFO"
                    fresh_world))) = 1
  /\ fst (__init__ sample_stanza "lat" (Some "perseus") "INFO" fresh_world)
     = Raise (FileNotFoundError
                "Missing required models for ``stanza`` at ``/home/u/stanza_resources/la/tokenize/perseus.pt``.").
Proof.
  assert (Hv : Validated sample_stanza "lat" (Some "perseus") "la" "perseus").
  { apply (validated_given sample_stanza "lat" "Latin" "la"
             ["perseus"; "proiel"; "ittb"] "perseus");
      [reflexivity | reflexivity | reflexivity | discriminate | compute_done]. }
  assert (Hnin : expected_path fresh_world "la" "perseus" ∉ files fresh_world)
    by compute_done.
  assert (Hd : download sample_stanza "lat" (Some "perseus") (files fresh_world)
               = Ok ({[ "/home/u/stanza_resources/lat/tokenize/perseus.pt" ]} ∪ ∅))
    by reflexivity.
  assert (Hfs : expected_path fresh_world "la" "perseus"
                ∉ ({[ "/home/u/stanza_resources/lat/tokenize/perseus.pt" ]} ∪ ∅
                   : gset string))
    by compute_done.
  destruct (absent_model_one_download sample_stanza "lat" (Some "perseus")
              "INFO" "la" "perseus" fresh_world Hv Hnin) as [Hone Hmiss].
  refine (conj Hv (conj Hnin (conj Hd (conj Hone _)))).
  rewrite (Hmiss _ Hd Hfs). reflexivity.
Defined.

Lemma present_model_no_download_witness :
  Validated sample_stanza "grc" None "grc" "proiel"
  /\ (expected_path greek_world "grc" "proiel" ∈ files greek_world)
  /\ exists args,
       snd (__init__ sample_stanza "grc" None "INFO" greek_world)
       = {| home := "/home/u"; files := files greek_world;
            log := [EvFileExists "/home/u/stanza_resources/grc/tokenize/proiel.pt" true;
                    EvSuppressStdout; EvPipeline args; EvRestoreStdout] |}
       /\ fst (__init__ sample_stanza "grc" None "INFO" greek_world)
          = Ok (set_nlp (checked_self greek_world "grc" "INFO" "grc" "proiel")
                  (mkPipeline args)).
Proof.
  assert (Hv : Validated sample_stanza "grc" None "grc" "proiel").
  { apply (validated_default sample_stanza "grc" "Ancient_Greek" "grc" None
             "proiel"); reflexivity. }
  assert (Hin : expected_path greek_world "grc" "proiel" ∈ files greek_world)
    by compute_done.
  refine (conj Hv (conj Hin _)).
  exact (present_model_no_download sample_stanza "grc" None "INFO" "grc"
           "proiel" greek_world Hv Hin).
Defined.

(** ** Resolution of the treebank and of the model path *)

(** C6.  For a supported language whose Stanza code has a default in
    Stanza's table, the constructor called without a treebank runs the
    model check for that default, and the object it returns has the
    default as its [treebank]. *)
Theorem default_treebank_resolved (stanza : Stanza)
    (a_language lvl name code t : string) (w : World) :
  map_langs_cltk_stanza !! a_language = Some name ->
  lang2lcode stanza !! name = Some code ->
  default_treebanks stanza !! code = Some t ->
  (exists found rest,
      log (snd (__init__ stanza a_language None lvl w))
      = log w ++ EvFileExists (expected_path w code t) found :: rest)
  /\ (forall self,
        fst (__init__ stanza a_language None lvl w) = Ok self ->
        treebank self = Some t).
Proof.
  intros Hn Hc Hd.
  assert (Hv : Validated stanza a_language None code t)
    by (eapply validated_default; eauto).
  destruct (init_validated_shape stanza a_language None lvl code t w Hv)
    as [Hlog Hok].
  split; [exact Hlog |].
  intros self Hs. destruct (Hok self Hs) as [args ->]. reflexivity.
Qed.

Lemma default_treebank_resolved_witness :
  map_langs_cltk_stanza !! "grc" = Some "Ancient_Greek"
  /\ lang2lcode sample_stanza !! "Ancient_Greek" = Some "grc"
  /\ default_treebanks sample_stanza !! "grc" = Some "proiel"
  /\ (treebank <$> match fst (__init__ sample_stanza "grc" None "INFO"
                                greek_world) with
                   | Ok self => Some self
                   | Raise _ => None
                   end)
     = Some (Some "proiel").
Proof.
  assert (H1 : map_langs_cltk_stanza !! "grc" = Some "Ancient_Greek")
    by reflexivity.
  assert (H2 : lang2lcode sample_stanza !! "Ancient_Greek" = Some "grc")
    by reflexivity.
  assert (H3 : default_treebanks sample_stanza !! "grc" = Some "proiel")
    by reflexivity.
  refine (conj H1 (conj H2 (conj H3 _))).
  destruct (default_treebank_resolved sample_stanza "grc" "INFO"
              "Ancient_Greek" "grc" "proiel" greek_world H1 H2 H3)
    as [_ Hok].
  destruct (fst (__init__ sample_stanza "grc" None "INFO" greek_world))
    as [self | e] eqn:Hr.
  - cbn. rewrite (Hok self eq_refl). reflexivity.
  - vm_compute in Hr. discriminate Hr.
Defined.

(** C8.  On validated arguments the path whose existence the constructor
    tests is [<home>/stanza_resources/<code>/tokenize/<treebank>.pt], where
    [code] is what Stanza's [lang2lcode] gives for the language's Stanza
    name; an object the constructor returns has this path as [model_path]
    and this code as [stanza_code]. *)
Theorem model_path_layout (stanza : Stanza) (a_language : string)
    (a_treebank : option string) (lvl code t : string) (w : World) :
  Validated stanza a_language a_treebank code t ->
  (exists name,
      map_langs_cltk_stanza !! a_language = Some name
      /\ lang2lcode stanza !! name = Some code)
  /\ (exists found rest,
        log (snd (__init__ stanza a_language a_treebank lvl w))
        = log w
          ++ EvFileExists
               (home w +:+ "/stanza_resources/" +:+ code +:+ "/tokenize/"
                +:+ t +:+ ".pt") found
             :: rest)
  /\ (forall self,
        fst (__init__ stanza a_language a_treebank lvl w) = Ok self ->
        model_path self
        = Some (home w +:+ "/stanza_resources/" +:+ code +:+ "/tokenize/"
                +:+ t +:+ ".pt")
        /\ stanza_code self = Some code
        /\ treebank self = Some t).
Proof.
  intros Hv.
  destruct (init_validated_shape stanza a_language a_treebank lvl code t w Hv)
    as [Hlog Hok].
  split; [exact (Validated_codes _ _ _ _ _ Hv) |].
  split; [exact Hlog |].
  intros self Hs. destruct (Hok self Hs) as [args ->].
  repeat split.
Qed.

Lemma model_path_layout_witness :
  Validated sample_stanza "lat" (Some "perseus") "la" "perseus"
  /\ exists found rest,
       log (snd (__init__ sample_stanza "lat" (Some "perseus") "INFO"
                   fresh_world))
       = EvFileExists "/home/u/stanza_resources/la/tokenize/perseus.pt" found
         :: rest.
Proof.
  assert (Hv : Validated sample_stanza "lat" (Some "perseus") "la" "perseus").
  { apply (validated_given sample_stanza "lat" "Latin" "la"
             ["perseus"; "proiel"; "ittb"] "perseus");
      [reflexivity | reflexivity | reflexivity | discriminate | compute_done]. }
  split; [exact Hv |].
  exact (proj1 (proj2 (model_path_layout sample_stanza "lat" (Some "perseus")
                         "INFO" "la" "perseus" fresh_world Hv))).
Defined.

(** C10.  On validated arguments with the model file absent, the downloader
    is called with the toolkit's language code, while the path looked for
    before and after the call is built from the Stanza code; nothing else
    is downloaded, so when the two codes differ no download is requested
    for the code of the path. *)
Theorem download_uses_toolkit_code (stanza : Stanza) (a_language : string)
    (a_treebank : option string) (lvl code t : string) (w : World) :
  Validated stanza a_language a_treebank code t ->
  expected_path w code t ∉ files w ->
  exists rest,
    log (snd (__init__ stanza a_language a_treebank lvl w))
    = log w ++ EvFileExists (expected_path w code t) false
            :: notice_events ++ EvDownload a_language (Some t) :: rest
    /\ (forall fs,
          download stanza a_language (Some t) (files w) = Ok fs ->
          exists found rest',
            rest = EvFileExists (expected_path w code t) found :: rest')
    /\ (a_language <> code ->
        forall pk,
          EvDownload code pk
          ∉ (EvFileExists (expected_path w code t) false
             :: notice_events ++ EvDownload a_language (Some t) :: rest)).
Proof.
  intros Hv Hnin. rewrite (init_model_absent stanza _ _ lvl _ _ w Hv Hnin).
  assert (Hno : forall rest, downloads rest = 0 -> a_language <> code ->
            forall pk,
              EvDownload code pk
              ∉ (EvFileExists (expected_path w code t) false
                 :: notice_events ++ EvDownload a_language (Some t) :: rest)).
  { intros rest Hz Hne pk Hin.
    apply elem_of_cons in Hin as [Heq | Hin]; [discriminate |].
    apply elem_of_app in Hin as [Hin | Hin].
    - revert Hin. apply downloads_zero_not_in. reflexivity.
    - apply elem_of_cons in Hin as [Heq | Hin]; [congruence |].
      revert Hin. apply downloads_zero_not_in. exact Hz. }
  destruct (download stanza a_language (Some t) (files w)) as [fs | e].
  - destruct (bool_decide (expected_path w code t ∈ fs)) eqn:Hfs.
    + rewrite build_stage_log. unfold download_checked, download_called.
      cbn [log]. rewrite Hfs. rewrite <- !app_assoc. cbn [app].
      eexists. split; [reflexivity |]. split.
      * intros fs' Hfs'. eexists _, _. reflexivity.
      * apply Hno. reflexivity.
    + unfold download_checked, download_called. cbn [log snd]. rewrite Hfs.
      rewrite <- !app_assoc. cbn [app].
      eexists. split; [reflexivity |]. split.
      * intros fs' Hfs'. eexists _, _. reflexivity.
      * apply Hno. reflexivity.
  - unfold download_failed, download_called, with_files. cbn [log snd].
    exists []. split; [reflexivity |]. split.
    + intros fs' Hfs'. discriminate.
    + apply Hno. reflexivity.
Qed.

Lemma download_uses_toolkit_code_witness :
  Validated sample_stanza "lat" (Some "perseus") "la" "perseus"
  /\ (expected_path fresh_world "la" "perseus" ∉ files fresh_world)
  /\ exists rest,
       log (snd (__init__ sample_stanza "lat" (Some "perseus") "INFO"
                   fresh_world))
       = EvFileExists "/home/u/stanza_resources/la/tokenize/perseus.pt" false
         :: notice_events ++ EvDownload "lat" (Some "perseus") :: rest.
Proof.
  assert (Hv : Validated sample_stanza "lat" (Some "perseus") "la" "perseus").
  { apply (validated_given sample_stanza "lat" "Latin" "la"
             ["perseus"; "proiel"; "ittb"] "perseus");
      [reflexivity | reflexivity | reflexivity | discriminate | compute_done]. }
  assert (Hnin : expected_path fresh_world "la" "perseus" ∉ files fresh_world)
    by compute_done.
  refine (conj Hv (conj Hnin _)).
  destruct (download_uses_toolkit_code sample_stanza "lat" (Some "perseus")
              "INFO" "la" "perseus" fresh_world Hv Hnin) as [rest [Hlog _]].
  exists rest. exact Hlog.
Defined.

(** ** The pipeline *)

(** C7.  [_load_pipeline] calls [stanza.Pipeline] once, with the Stanza
    code and the treebank of the object; for language [fro] the processors
    are [tokenize,pos,lemma] with [lemma_use_identity] set, and for every
    other language they are [tokenize,mwt,pos,lemma,depparse] with
    [lemma_use_identity] unset. *)
Theorem pipeline_processors (stanza : Stanza) (self : StanzaWrapper)
    (code : string) (w : World) :
  stanza_code self = Some code ->
  exists args,
    _load_pipeline stanza self w = stanza_Pipeline stanza args w
    /\ lang args = code
    /\ package args = treebank self
    /\ (language self = "fro" ->
        processors args = "tokenize,pos,lemma"
        /\ lemma_use_identity args = true)
    /\ (language self <> "fro" ->
        processors args = "tokenize,mwt,pos,lemma,depparse"
        /\ lemma_use_identity args = false).
Proof.
  intros Hc. exists (pipeline_args w self code).
  split; [exact (load_pipeline_eq stanza self code w Hc) |].
  unfold pipeline_args. cbn [lang package processors lemma_use_identity].
  split; [reflexivity |]. split; [reflexivity |].
  destruct (decide (language self = "fro")) as [Hfro | Hfro]; split;
    intros H; try (split; reflexivity); contradiction.
Qed.

Lemma pipeline_processors_witness :
  stanza_code (checked_self fresh_world "fro" "INFO" "fro" "srcmf") = Some "fro"
  /\ exists args,
       _load_pipeline sample_stanza
         (checked_self fresh_world "fro" "INFO" "fro" "srcmf") fresh_world
       = stanza_Pipeline sample_stanza args fresh_world
       /\ processors args = "tokenize,pos,lemma"
       /\ lemma_use_identity args = true.
Proof.
  assert (Hc : stanza_code (checked_self fresh_world "fro" "INFO" "fro" "srcmf")
               = Some "fro") by reflexivity.
  split; [exact Hc |].
  destruct (pipeline_processors sample_stanza
              (checked_self fresh_world "fro" "INFO" "fro" "srcmf") "fro"
              fresh_world Hc) as [args [Heq [_ [_ [Hfro _]]]]].
  exists args. split; [exact Heq |]. exact (Hfro eq_refl).
Defined.

(** ** The cache *)

(** C2.  Once [get_nlp] has returned an object for a language, a second
    call for that language returns the same reference whatever the
    treebank argument, and leaves the whole process state as it was:
    nothing is constructed, checked or downloaded. *)
Theorem get_nlp_cached (stanza : Stanza) (a_language : string)
    (t1 t2 : option string) (p p1 : Process) (r : ref) :
  get_nlp stanza a_language t1 p = (Ok r, p1) ->
  get_nlp stanza a_language t2 p1 = (Ok r, p1).
Proof.
  unfold get_nlp at 1. intros H.
  destruct (nlps p !! a_language) as [r0 |] eqn:Hl.
  - injection H as <- <-. unfold get_nlp. rewrite Hl. reflexivity.
  - destruct (__init__ stanza a_language t1 "ERROR" (world p))
      as [[self | e] w'] eqn:Hi; [| discriminate].
    injection H as <- <-. unfold get_nlp. cbn [nlps].
    rewrite lookup_insert_eq. reflexivity.
Qed.

Lemma get_nlp_cached_witness :
  get_nlp sample_stanza "grc" None fresh_process
  = (Ok 0, snd (get_nlp sample_stanza "grc" None fresh_process))
  /\ get_nlp sample_stanza "grc" (Some "perseus")
       (snd (get_nlp sample_stanza "grc" None fresh_process))
     = (Ok 0, snd (get_nlp sample_stanza "grc" None fresh_process)).
Proof.
  assert (H : get_nlp sample_stanza "grc" None fresh_process
              = (Ok 0, snd (get_nlp sample_stanza "grc" None fresh_process)))
    by (vm_compute; reflexivity).
  split; [exact H |].
  exact (get_nlp_cached sample_stanza "grc" None (Some "perseus")
           fresh_process _ 0 H).
Defined.

(** C9.  When the language is not cached and the constructor raises,
    [get_nlp] raises the same exception and neither the cache nor the
    object store changes. *)
Theorem get_nlp_failure_keeps_cache (stanza : Stanza) (a_language : string)
    (a_treebank : option string) (p : Process) (e : Exn) :
  nlps p !! a_language = None ->
  fst (__init__ stanza a_language a_treebank "ERROR" (world p)) = Raise e ->
  fst (get_nlp stanza a_language a_treebank p) = Raise e
  /\ nlps (snd (get_nlp stanza a_language a_treebank p)) = nlps p
  /\ objects (snd (get_nlp stanza a_language a_treebank p)) = objects p
  /\ nlps (snd (get_nlp stanza a_language a_treebank p)) !! a_language = None.
Proof.
  intros Hl Hi. unfold get_nlp. rewrite Hl.
  destruct (__init__ stanza a_language a_treebank "ERROR" (world p))
    as [[self | e'] w'].
  - discriminate.
  - cbn [fst snd nlps objects] in *. injection Hi as ->.
    split; [reflexivity |]. split; [reflexivity |]. split; [reflexivity |].
    exact Hl.
Qed.

Lemma get_nlp_failure_keeps_cache_witness :
  nlps fresh_process !! "lat" = None
  /\ fst (__init__ sample_stanza "lat" (Some "xxx") "ERROR" (world fresh_process))
     = Raise (UnimplementedLanguageError
                "Invalid treebank 'xxx' for language 'lat'.")
  /\ fst (get_nlp sample_stanza "lat" (Some "xxx") fresh_process)
     = Raise (UnimplementedLanguageError
                "Invalid treebank 'xxx' for language 'lat'.")
  /\ nlps (snd (get_nlp sample_stanza "lat" (Some "xxx") fresh_process)) = ∅.
Proof.
  assert (Hl : nlps fresh_process !! "lat" = None) by reflexivity.
  assert (Hi : fst (__init__ sample_stanza "lat" (Some "xxx") "ERROR"
                      (world fresh_process))
               = Raise (UnimplementedLanguageError
                          "Invalid treebank 'xxx' for language 'lat'."))
    by (vm_compute; reflexivity).
  destruct (get_nlp_failure_keeps_cache sample_stanza "lat" (Some "xxx")
              fresh_process _ Hl Hi) as [Hr [Hn _]].
  refine (conj Hl (conj Hi (conj Hr _))). exact Hn.
Defined.

(** ** Runs of the constructor *)

Lemma init_run (stanza : Stanza) (a_language : string)
    (a_treebank : option string) (lvl : string) (w : World) :
  InitRun stanza a_language a_treebank lvl w
    (__init__ stanza a_language a_treebank lvl w).
Proof.
  destruct (init_validation_cases stanza a_language a_treebank lvl w)
    as [[code [t Hv]] | [e [He Heq]]].
  - destruct (decide (expected_path w code t ∈ files w)) as [Hin | Hnin].
    + rewrite (init_model_present stanza _ _ lvl _ _ w Hv Hin).
      apply run_present; assumption.
    + rewrite (init_model_absent stanza _ _ lvl _ _ w Hv Hnin).
      destruct (download stanza a_language (Some t) (files w)) as [fs | e]
        eqn:Hd.
      * destruct (bool_decide (expected_path w code t ∈ fs)) eqn:Hfs.
        -- apply bool_decide_eq_true_1 in Hfs.
           apply run_downloaded; assumption.
        -- apply bool_decide_eq_false_1 in Hfs.
           apply run_still_missing; assumption.
      * apply run_download_raises; assumption.
  - rewrite Heq. apply run_rejected. exact He.
Qed.

Lemma pipeline_calls_app (l1 l2 : list Event) :
  pipeline_calls (l1 ++ l2) = pipeline_calls l1 + pipeline_calls l2.
Proof.
  induction l1 as [| e l1 IH]; [reflexivity |].
  destruct e; cbn [app pipeline_calls]; rewrite IH; reflexivity.
Qed.

(** ** Rejected arguments *)

(** X1.  [_get_stanza_code] on an object whose [language] was changed to
    something outside the supported five raises the [KeyError] that names
    the renaming, whatever Stanza's tables hold. *)
Theorem get_stanza_code_renamed (stanza : Stanza) (self : StanzaWrapper) :
  language self ∉ supported_languages ->
  _get_stanza_code stanza self
  = Raise (KeyError "Somehow ``StanzaWrapper.language`` got renamed to something invalid. This should never happen.").
Proof.
  intros Hnin. unfold _get_stanza_code.
  rewrite (map_langs_unsupported _ Hnin). reflexivity.
Qed.

Lemma get_stanza_code_renamed_witness :
  (language (set_treebank
               {| language := "xxx"; treebank := Some "proiel";
                  stanza_debug_level := "INFO";
                  wrapper_available := Some true; stanza_code := Some "grc";
                  self_map_code_treebanks := None;
                  model_path := None; nlp := None |} None)
   ∉ supported_languages)
  /\ _get_stanza_code sample_stanza
       (set_treebank
          {| language := "xxx"; treebank := Some "proiel";
             stanza_debug_level := "INFO";
             wrapper_available := Some true; stanza_code := Some "grc";
             self_map_code_treebanks := None;
             model_path := None; nlp := None |} None)
     = Raise (KeyError "Somehow ``StanzaWrapper.language`` got renamed to something invalid. This should never happen.").
Proof.
  assert (H : language (set_treebank
               {| language := "xxx"; treebank := Some "proiel";
                  stanza_debug_level := "INFO";
                  wrapper_available := Some true; stanza_code := Some "grc";
                  self_map_code_treebanks := None;
                  model_path := None; nlp := None |} None)
              ∉ supported_languages) by compute_done.
  split; [exact H |].
  exact (get_stanza_code_renamed sample_stanza _ H).
Defined.

(** X2.  When the language is supported but Stanza's [lang2lcode] has no
    entry for its Stanza name, the constructor raises the "out of sync"
    [KeyError] before anything is checked, printed or downloaded. *)
Theorem out_of_sync_raises (stanza : Stanza) (a_language name : string)
    (a_treebank : option string) (lvl : string) (w : World) :
  map_langs_cltk_stanza !! a_language = Some name ->
  lang2lcode stanza !! name = None ->
  __init__ stanza a_language a_treebank lvl w
  = (Raise (KeyError "The CLTK's map of ISO-to-Stanza is out of sync."), w).
Proof.
  intros Hn Hc. unfold __init__, is_wrapper_available, _get_stanza_code.
  cbn [language wrapper_available set_wrapper_available].
  rewrite Hn. rewrite decide_True by eauto. cbn [default negb].
  unfold bind at 1. unfold lift at 1. rewrite Hc. reflexivity.
Qed.

Lemma out_of_sync_raises_witness :
  map_langs_cltk_stanza !! "chu" = Some "Old_Church_Slavonic"
  /\ lang2lcode short_stanza !! "Old_Church_Slavonic" = None
  /\ __init__ short_stanza "chu" None "INFO" fresh_world
     = (Raise (KeyError "The CLTK's map of ISO-to-Stanza is out of sync."),
        fresh_world).
Proof.
  assert (H1 : map_langs_cltk_stanza !! "chu" = Some "Old_Church_Slavonic")
    by reflexivity.
  assert (H2 : lang2lcode short_stanza !! "Old_Church_Slavonic" = None)
    by reflexivity.
  refine (conj H1 (conj H2 _)).
  exact (out_of_sync_raises short_stanza "chu" "Old_Church_Slavonic" None
           "INFO" fresh_world H1 H2).
Defined.

(** X3.  When the language resolves to a Stanza code without an entry in
    [map_code_treebanks], any non-empty treebank makes the constructor
    raise [KeyError] on that code, before anything is checked, printed or
    downloaded. *)
Theorem treebank_table_miss_raises (stanza : Stanza)
    (a_language t lvl name code : string) (w : World) :
  map_langs_cltk_stanza !! a_language = Some name ->
  lang2lcode stanza !! name = Some code ->
  map_code_treebanks !! code = None ->
  t <> "" ->
  __init__ stanza a_language (Some t) lvl w = (Raise (KeyError code), w).
Proof.
  intros Hn Hc Hp Ht.
  unfold __init__, is_wrapper_available, _get_stanza_code, _is_valid_treebank.
  cbn [language treebank wrapper_available stanza_code set_wrapper_available
       set_stanza_code set_map_code_treebanks
       self_map_code_treebanks].
  rewrite Hn. rewrite decide_True by eauto. cbn [default negb].
  unfold bind at 1. unfold lift at 1. rewrite Hc.
  cbn [language treebank wrapper_available stanza_code set_stanza_code set_map_code_treebanks
       self_map_code_treebanks].
  rewrite (truthy_Some_nonempty t Ht).
  unfold bind at 1. unfold bind at 1. unfold lift at 1.
  cbn [rbind attr]. rewrite Hp. reflexivity.
Qed.

Lemma treebank_table_miss_raises_witness :
  map_langs_cltk_stanza !! "chu" = Some "Old_Church_Slavonic"
  /\ lang2lcode sample_stanza !! "Old_Church_Slavonic" = Some "cu"
  /\ map_code_treebanks !! "cu" = None
  /\ "proiel" <> ""
  /\ __init__ sample_stanza "chu" (Some "proiel") "INFO" fresh_world
     = (Raise (KeyError "cu"), fresh_world).
Proof.
  assert (H1 : map_langs_cltk_stanza !! "chu" = Some "Old_Church_Slavonic")
    by reflexivity.
  assert (H2 : lang2lcode sample_stanza !! "Old_Church_Slavonic" = Some "cu")
    by reflexivity.
  assert (H3 : map_code_treebanks !! "cu" = None) by reflexivity.
  assert (H4 : "proiel" <> "") by discriminate.
  refine (conj H1 (conj H2 (conj H3 (conj H4 _)))).
  exact (treebank_table_miss_raises sample_stanza "chu" "proiel" "INFO"
           "Old_Church_Slavonic" "cu" fresh_world H1 H2 H3 H4).
Defined.

(** X4.  When no treebank is given (or an empty one) and Stanza records no
    default for the language's code, the constructor raises [KeyError] on
    that code, before anything is checked, printed or downloaded. *)
Theorem default_table_miss_raises (stanza : Stanza)
    (a_language lvl name code : string) (a_treebank : option string)
    (w : World) :
  map_langs_cltk_stanza !! a_language = Some name ->
  lang2lcode stanza !! name = Some code ->
  truthy a_treebank = false ->
  default_treebanks stanza !! code = None ->
  __init__ stanza a_language a_treebank lvl w = (Raise (KeyError code), w).
Proof.
  intros Hn Hc Htr Hd.
  unfold __init__, is_wrapper_available, _get_stanza_code,
    _get_default_treebank.
  cbn [language treebank wrapper_available stanza_code set_wrapper_available
       set_stanza_code set_map_code_treebanks
       self_map_code_treebanks].
  rewrite Hn. rewrite decide_True by eauto. cbn [default negb].
  unfold bind at 1. unfold lift at 1. rewrite Hc.
  cbn [language treebank wrapper_available stanza_code set_stanza_code set_map_code_treebanks
       self_map_code_treebanks].
  rewrite Htr. unfold bind at 1. unfold bind at 1. unfold lift at 1.
  cbn [rbind attr]. rewrite Hd. reflexivity.
Qed.

Lemma default_table_miss_raises_witness :
  map_langs_cltk_stanza !! "got" = Some "Gothic"
  /\ lang2lcode short_stanza !! "Gothic" = Some "got"
  /\ truthy None = false
  /\ default_treebanks short_stanza !! "got" = None
  /\ __init__ short_stanza "got" None "INFO" fresh_world
     = (Raise (KeyError "got"), fresh_world).
Proof.
  assert (H1 : map_langs_cltk_stanza !! "got" = Some "Gothic") by reflexivity.
  assert (H2 : lang2lcode short_stanza !! "Gothic" = Some "got") by reflexivity.
  assert (H3 : truthy None = false) by reflexivity.
  assert (H4 : default_treebanks short_stanza !! "got" = None) by reflexivity.
  refine (conj H1 (conj H2 (conj H3 (conj H4 _)))).
  exact (default_table_miss_raises short_stanza "got" "INFO" "Gothic" "got"
           None fresh_world H1 H2 H3 H4).
Defined.

(** X5.  An empty treebank string is the same as no treebank at all: the
    two constructor calls have the same result and the same effects. *)
Theorem empty_treebank_is_none (stanza : Stanza) (a_language lvl : string)
    (w : World) :
  __init__ stanza a_language (Some "") lvl w
  = __init__ stanza a_language None lvl w.
Proof.
  destruct (map_langs_cltk_stanza !! a_language) as [name |] eqn:Hn.
  - destruct (lang2lcode stanza !! name) as [code |] eqn:Hc.
    + destruct (default_treebanks stanza !! code) as [t |] eqn:Hd.
      * assert (Hv : forall tb, truthy tb = false ->
                  Validated stanza a_language tb code t)
          by (intros tb Htb; eapply validated_default; eauto).
        rewrite (init_validated stanza _ _ lvl _ _ w (Hv (Some "") eq_refl)).
        rewrite (init_validated stanza _ _ lvl _ _ w (Hv None eq_refl)).
        reflexivity.
      * unfold __init__, is_wrapper_available, _get_stanza_code,
          _get_default_treebank.
        cbn [language treebank wrapper_available stanza_code
             set_wrapper_available set_stanza_code set_map_code_treebanks
       self_map_code_treebanks].
        rewrite Hn. rewrite !decide_True by eauto. cbn [default negb].
        unfold bind at 1. unfold bind at 3. unfold lift at 1.
        unfold lift at 3. rewrite Hc.
        cbn [language treebank wrapper_available stanza_code set_stanza_code set_map_code_treebanks
       self_map_code_treebanks
             truthy].
        unfold bind, lift. cbn [rbind attr]. rewrite Hd. reflexivity.
    + unfold __init__, is_wrapper_available, _get_stanza_code.
      cbn [language wrapper_available set_wrapper_available].
      rewrite Hn. rewrite !decide_True by eauto. cbn [default negb].
      unfold bind, lift. rewrite Hc. reflexivity.
  - unfold __init__, is_wrapper_available.
    cbn [language wrapper_available set_wrapper_available].
    rewrite Hn. rewrite !decide_False by (intros [x Hx]; discriminate).
    reflexivity.
Qed.

(** What a returned object tells about the run that built it. *)
Lemma init_ok_inv (stanza : Stanza) (a_language : string)
    (a_treebank : option string) (lvl : string) (w : World)
    (self : StanzaWrapper) :
  fst (__init__ stanza a_language a_treebank lvl w) = Ok self ->
  exists code t fs,
    Validated stanza a_language a_treebank code t
    /\ (fs = files w \/ download stanza a_language (Some t) (files w) = Ok fs)
    /\ expected_path w code t ∈ fs
    /\ files (snd (__init__ stanza a_language a_treebank lvl w)) = fs
    /\ home (snd (__init__ stanza a_language a_treebank lvl w)) = home w
    /\ Pipeline stanza
         (pipeline_args w (checked_self w a_language lvl code t) code) fs
       = None
    /\ self = set_nlp (checked_self w a_language lvl code t)
                (mkPipeline
                   (pipeline_args w (checked_self w a_language lvl code t)
                      code)).
Proof.
  pose proof (init_run stanza a_language a_treebank lvl w) as Hr.
  remember (__init__ stanza a_language a_treebank lvl w) as r eqn:Er.
  clear Er. intros Hs.
  destruct Hr as [e He | code t Hv Hin | code t e Hv Hnin Hd
                 | code t fs Hv Hnin Hd Hfs | code t fs Hv Hnin Hd Hfs];
    try discriminate Hs.
  - exists code, t, (files w). unfold build_stage in *.
    cbn [fst snd home files emit pipeline_args] in *.
    destruct (Pipeline stanza _ (files w)) eqn:Hp; [discriminate |].
    injection Hs as <-. repeat split; auto.
  - exists code, t, fs. unfold build_stage in *.
    cbn [fst snd home files download_checked pipeline_args] in *.
    destruct (Pipeline stanza _ fs) eqn:Hp; [discriminate |].
    injection Hs as <-. repeat split; auto.
Qed.

(** X10.  On validated arguments with the model file absent, an exception
    of the downloader leaves the constructor as it is, and the log ends
    with the downloader call: the file is not looked for again and no
    pipeline is built. *)
Theorem downloader_exception_propagates (stanza : Stanza)
    (a_language : string) (a_treebank : option string) (lvl code t : string)
    (w : World) (e : Exn) :
  Validated stanza a_language a_treebank code t ->
  expected_path w code t ∉ files w ->
  download stanza a_language (Some t) (files w) = Raise e ->
  fst (__init__ stanza a_language a_treebank lvl w) = Raise e
  /\ log (snd (__init__ stanza a_language a_treebank lvl w))
     = log w ++ EvFileExists (expected_path w code t) false
             :: notice_events ++ [EvDownload a_language (Some t)].
Proof.
  intros Hv Hnin Hd.
  rewrite (init_model_absent stanza _ _ lvl _ _ w Hv Hnin). rewrite Hd.
  split; reflexivity.
Qed.

Lemma downloader_exception_propagates_witness :
  Validated offline_stanza "lat" (Some "perseus") "la" "perseus"
  /\ (expected_path fresh_world "la" "perseus" ∉ files fresh_world)
  /\ download offline_stanza "lat" (Some "perseus") (files fresh_world)
     = Raise (StanzaError "Connection refused")
  /\ fst (__init__ offline_stanza "lat" (Some "perseus") "INFO" fresh_world)
     = Raise (StanzaError "Connection refused")
  /\ log (snd (__init__ offline_stanza "lat" (Some "perseus") "INFO"
                 fresh_world))
     = EvFileExists "/home/u/stanza_resources/la/tokenize/perseus.pt" false
       :: notice_events ++ [EvDownload "lat" (Some "perseus")].
Proof.
  assert (Hv : Validated offline_stanza "lat" (Some "perseus") "la" "perseus").
  { apply (validated_given offline_stanza "lat" "Latin" "la"
             ["perseus"; "proiel"; "ittb"] "perseus");
      [reflexivity | reflexivity | reflexivity | discriminate | compute_done]. }
  assert (Hnin : expected_path fresh_world "la" "perseus" ∉ files fresh_world)
    by compute_done.
  assert (Hd : download offline_stanza "lat" (Some "perseus")
                 (files fresh_world)
               = Raise (StanzaError "Connection refused")) by reflexivity.
  refine (conj Hv (conj Hnin (conj Hd _))).
  exact (downloader_exception_propagates offline_stanza "lat"
           (Some "perseus") "INFO" "la" "perseus" fresh_world _ Hv Hnin Hd).
Defined.

(** ** Successful construction *)

(** X7.  When the constructor returns an object, the model file of that
    object exists in the file store the constructor leaves behind. *)
Theorem constructed_model_exists (stanza : Stanza) (a_language : string)
    (a_treebank : option string) (lvl : string) (w : World)
    (self : StanzaWrapper) :
  fst (__init__ stanza a_language a_treebank lvl w) = Ok self ->
  exists path,
    model_path self = Some path
    /\ path ∈ files (snd (__init__ stanza a_language a_treebank lvl w)).
Proof.
  intros Hs.
  destruct (init_ok_inv stanza _ _ lvl w self Hs)
    as (code & t & fs & Hv & Hfs & Hin & Hfiles & Hhome & Hp & ->).
  exists (expected_path w code t). rewrite Hfiles. split; [reflexivity | exact Hin].
Qed.

Lemma constructed_model_exists_witness :
  fst (__init__ sample_stanza "grc" None "INFO" fresh_world)
  = Ok (set_nlp (checked_self fresh_world "grc" "INFO" "grc" "proiel")
          (mkPipeline
             (pipeline_args fresh_world
                (checked_self fresh_world "grc" "INFO" "grc" "proiel") "grc")))
  /\ exists path,
       model_path
         (set_nlp (checked_self fresh_world "grc" "INFO" "grc" "proiel")
            (mkPipeline
               (pipeline_args fresh_world
                  (checked_self fresh_world "grc" "INFO" "grc" "proiel")
                  "grc")))
       = Some path
       /\ path ∈ files (snd (__init__ sample_stanza "grc" None "INFO"
                               fresh_world)).
Proof.
  assert (H : fst (__init__ sample_stanza "grc" None "INFO" fresh_world)
              = Ok (set_nlp (checked_self fresh_world "grc" "INFO" "grc" "proiel")
                      (mkPipeline
                         (pipeline_args fresh_world
                            (checked_self fresh_world "grc" "INFO" "grc"
                               "proiel") "grc"))))
    by (vm_compute; reflexivity).
  split; [exact H |].
  exact (constructed_model_exists sample_stanza "grc" None "INFO" fresh_world
           _ H).
Defined.

(** X8.  An object returned by the constructor is consistent: it keeps the
    language and the debug level it was given, it is marked available, and
    its pipeline was built with its own Stanza code, its own treebank and
    debug level, the [stanza_resources] directory under the home, and the
    GPU flag set. *)
Theorem constructed_object_consistent (stanza : Stanza) (a_language : string)
    (a_treebank : option string) (lvl : string) (w : World)
    (self : StanzaWrapper) :
  fst (__init__ stanza a_language a_treebank lvl w) = Ok self ->
  language self = a_language
  /\ stanza_debug_level self = lvl
  /\ wrapper_available self = Some true
  /\ exists code pipeline,
       stanza_code self = Some code
       /\ nlp self = Some pipeline
       /\ lang (built_with pipeline) = code
       /\ package (built_with pipeline) = treebank self
       /\ logging_level (built_with pipeline) = lvl
       /\ dir (built_with pipeline) = home w +:+ "/stanza_resources/"
       /\ use_gpu (built_with pipeline) = true.
Proof.
  intros Hs.
  destruct (init_ok_inv stanza _ _ lvl w self Hs)
    as (code & t & fs & Hv & Hfs & Hin & Hfiles & Hhome & Hp & ->).
  split; [reflexivity |]. split; [reflexivity |]. split; [reflexivity |].
  eexists code, _. repeat split.
Qed.

Lemma constructed_object_consistent_witness :
  fst (__init__ sample_stanza "grc" (Some "perseus") "INFO" fresh_world)
  = Ok (set_nlp (checked_self fresh_world "grc" "INFO" "grc" "perseus")
          (mkPipeline
             (pipeline_args fresh_world
                (checked_self fresh_world "grc" "INFO" "grc" "perseus") "grc")))
  /\ language (set_nlp (checked_self fresh_world "grc" "INFO" "grc" "perseus")
                 (mkPipeline
                    (pipeline_args fresh_world
                       (checked_self fresh_world "grc" "INFO" "grc" "perseus")
                       "grc")))
     = "grc".
Proof.
  assert (H : fst (__init__ sample_stanza "grc" (Some "perseus") "INFO"
                     fresh_world)
              = Ok (set_nlp
                      (checked_self fresh_world "grc" "INFO" "grc" "perseus")
                      (mkPipeline
                         (pipeline_args fresh_world
                            (checked_self fresh_world "grc" "INFO" "grc"
                               "perseus") "grc"))))
    by (vm_compute; reflexivity).
  split; [exact H |].
  exact (proj1 (constructed_object_consistent sample_stanza "grc"
                  (Some "perseus") "INFO" fresh_world _ H)).
Defined.

(** X9.  On validated arguments with the model file absent, when the
    downloader delivers the file and the pipeline builds, the constructor
    returns the object, and the log grows by exactly: the failed check, the
    notice, the downloader call, the successful check, and the pipeline
    call between suppression and restoration of stdout. *)
Theorem download_then_build (stanza : Stanza) (a_language : string)
    (a_treebank : option string) (lvl code t : string) (w : World)
    (fs : gset string) :
  Validated stanza a_language a_treebank code t ->
  expected_path w code t ∉ files w ->
  download stanza a_language (Some t) (files w) = Ok fs ->
  expected_path w code t ∈ fs ->
  Pipeline stanza (pipeline_args w (checked_self w a_language lvl code t) code)
    fs = None ->
  __init__ stanza a_language a_treebank lvl w
  = (Ok (set_nlp (checked_self w a_language lvl code t)
           (mkPipeline
              (pipeline_args w (checked_self w a_language lvl code t) code))),
     {| home := home w; files := fs;
        log := log w
               ++ EvFileExists (expected_path w code t) false
                  :: notice_events
               ++ [EvDownload a_language (Some t);
                   EvFileExists (expected_path w code t) true;
                   EvSuppressStdout;
                   EvPipeline
                     (pipeline_args w (checked_self w a_language lvl code t)
                        code);
                   EvRestoreStdout] |}).
Proof.
  intros Hv Hnin Hd Hfs Hp.
  rewrite (init_model_absent stanza _ _ lvl _ _ w Hv Hnin). rewrite Hd.
  rewrite bool_decide_eq_true_2 by exact Hfs.
  unfold build_stage.
  change (pipeline_args (download_checked w a_language code t fs))
    with (pipeline_args w).
  change (files (download_checked w a_language code t fs)) with fs.
  rewrite Hp. unfold download_checked, download_called.
  cbn [home files log]. rewrite bool_decide_eq_true_2 by exact Hfs.
  rewrite <- !app_assoc. reflexivity.
Qed.

Lemma download_then_build_witness :
  Validated sample_stanza "grc" None "grc" "proiel"
  /\ (expected_path fresh_world "grc" "proiel" ∉ files fresh_world)
  /\ download sample_stanza "grc" (Some "proiel") (files fresh_world)
     = Ok ({[ "/home/u/stanza_resources/grc/tokenize/proiel.pt" ]} ∪ ∅)
  /\ fst (__init__ sample_stanza "grc" None "INFO" fresh_world)
     = Ok (set_nlp (checked_self fresh_world "grc" "INFO" "grc" "proiel")
             (mkPipeline
                (pipeline_args fresh_world
                   (checked_self fresh_world "grc" "INFO" "grc" "proiel")
                   "grc"))).
Proof.
  assert (Hv : Validated sample_stanza "grc" None "grc" "proiel").
  { apply (validated_default sample_stanza "grc" "Ancient_Greek" "grc" None
             "proiel"); reflexivity. }
  assert (Hnin : expected_path fresh_world "grc" "proiel" ∉ files fresh_world)
    by compute_done.
  assert (Hd : download sample_stanza "grc" (Some "proiel") (files fresh_world)
               = Ok ({[ "/home/u/stanza_resources/grc/tokenize/proiel.pt" ]} ∪ ∅))
    by reflexivity.
  assert (Hfs : expected_path fresh_world "grc" "proiel"
                ∈ ({[ "/home/u/stanza_resources/grc/tokenize/proiel.pt" ]} ∪ ∅
                   : gset string))
    by compute_done.
  refine (conj Hv (conj Hnin (conj Hd _))).
  rewrite (download_then_build sample_stanza "grc" None "INFO" "grc" "proiel"
             fresh_world _ Hv Hnin Hd Hfs eq_refl).
  reflexivity.
Defined.

(** ** What a run leaves behind *)

(** X14.  One run of the constructor calls the downloader at most once and
    the pipeline constructor at most once. *)
Theorem at_most_one_download_and_pipeline (stanza : Stanza)
    (a_language : string) (a_treebank : option string) (lvl : string)
    (w : World) :
  downloads (log (snd (__init__ stanza a_language a_treebank lvl w)))
  <= S (downloads (log w))
  /\ pipeline_calls (log (snd (__init__ stanza a_language a_treebank lvl w)))
     <= S (pipeline_calls (log w)).
Proof.
  destruct (init_run stanza a_language a_treebank lvl w)
    as [e He | code t Hv Hin | code t e Hv Hnin Hd
       | code t fs Hv Hnin Hd Hfs | code t fs Hv Hnin Hd Hfs].
  - cbn [snd]. lia.
  - rewrite build_stage_log. cbn [log emit].
    rewrite !downloads_app, !pipeline_calls_app. cbn. lia.
  - unfold download_failed, download_called, with_files. cbn [log snd].
    rewrite !downloads_app, !pipeline_calls_app. cbn. lia.
  - unfold download_checked, download_called. cbn [snd log].
    rewrite !downloads_app, !pipeline_calls_app. cbn. lia.
  - rewrite build_stage_log. unfold download_checked, download_called.
    cbn [log]. rewrite !downloads_app, !pipeline_calls_app. cbn. lia.
Qed.

(** X12.  Once the constructor has returned an object, constructing again
    with the same arguments in the world left behind finds the object's
    model file and goes straight to the pipeline: the log grows by the
    successful check and the pipeline call between suppression and
    restoration of stdout, and the downloader is not called. *)
Theorem reconstruction_without_download (stanza : Stanza)
    (a_language : string) (a_treebank : option string) (lvl : string)
    (w : World) (self : StanzaWrapper) :
  fst (__init__ stanza a_language a_treebank lvl w) = Ok self ->
  downloads
    (log (snd (__init__ stanza a_language a_treebank lvl
                 (snd (__init__ stanza a_language a_treebank lvl w)))))
  = downloads (log (snd (__init__ stanza a_language a_treebank lvl w)))
  /\ exists path args,
       model_path self = Some path
       /\ log (snd (__init__ stanza a_language a_treebank lvl
                      (snd (__init__ stanza a_language a_treebank lvl w))))
          = log (snd (__init__ stanza a_language a_treebank lvl w))
            ++ [EvFileExists path true; EvSuppressStdout; EvPipeline args;
                EvRestoreStdout].
Proof.
  intros Hs.
  destruct (init_ok_inv stanza _ _ lvl w self Hs)
    as (code & t & fs & Hv & Hfs & Hin & Hfiles & Hhome & Hp & ->).
  set (w1 := snd (__init__ stanza a_language a_treebank lvl w)) in *.
  assert (Hpath : expected_path w1 code t = expected_path w code t)
    by (unfold expected_path; rewrite Hhome; reflexivity).
  assert (Hin1 : expected_path w1 code t ∈ files w1)
    by (rewrite Hpath, Hfiles; exact Hin).
  rewrite (init_model_present stanza _ _ lvl _ _ w1 Hv Hin1).
  rewrite build_stage_log. cbn [log emit]. rewrite Hpath. split.
  - rewrite !downloads_app. cbn [downloads]. lia.
  - eexists _, _. split; [reflexivity |].
    rewrite <- app_assoc. reflexivity.
Qed.

Lemma reconstruction_without_download_witness :
  fst (__init__ sample_stanza "grc" None "INFO" fresh_world)
  = Ok (set_nlp (checked_self fresh_world "grc" "INFO" "grc" "proiel")
          (mkPipeline
             (pipeline_args fresh_world
                (checked_self fresh_world "grc" "INFO" "grc" "proiel") "grc")))
  /\ downloads
       (log (snd (__init__ sample_stanza "grc" None "INFO"
                    (snd (__init__ sample_stanza "grc" None "INFO"
                            fresh_world)))))
     = downloads
         (log (snd (__init__ sample_stanza "grc" None "INFO" fresh_world))).
Proof.
  assert (H : fst (__init__ sample_stanza "grc" None "INFO" fresh_world)
              = Ok (set_nlp (checked_self fresh_world "grc" "INFO" "grc" "proiel")
                      (mkPipeline
                         (pipeline_args fresh_world
                            (checked_self fresh_world "grc" "INFO" "grc"
                               "proiel") "grc"))))
    by (vm_compute; reflexivity).
  split; [exact H |].
  exact (proj1 (reconstruction_without_download sample_stanza "grc"
                  None "INFO" fresh_world _ H)).
Defined.

(** X16.  A non-empty treebank argument is only ever accepted for the
    Stanza codes [grc] and [la], and then it is one of the listed
    treebanks of that code and becomes the object's treebank unchanged. *)
Theorem explicit_treebank_accepted (stanza : Stanza) (a_language t lvl : string)
    (w : World) (self : StanzaWrapper) :
  fst (__init__ stanza a_language (Some t) lvl w) = Ok self ->
  t <> "" ->
  treebank self = Some t
  /\ ((stanza_code self = Some "grc" /\ t ∈ ["proiel"; "perseus"])
      \/ (stanza_code self = Some "la" /\ t ∈ ["perseus"; "proiel"; "ittb"])).
Proof.
  intros Hs Ht.
  destruct (init_ok_inv stanza _ _ lvl w self Hs)
    as (code & t0 & fs & Hv & Hfs & Hin & Hfiles & Hhome & Hp & ->).
  inversion Hv as [name code' possible t' Hn Hc Hposs Ht' Hmem
                  | name code' tb t' Hn Hc Htr Hd]; subst.
  - split; [reflexivity |]. cbn [stanza_code set_nlp checked_self].
    unfold map_code_treebanks in Hposs.
    apply elem_of_list_to_map_2 in Hposs.
    apply elem_of_cons in Hposs as [Heq | Hposs].
    { injection Heq as -> ->. left. split; [reflexivity | exact Hmem]. }
    apply elem_of_cons in Hposs as [Heq | Hposs].
    { injection Heq as -> ->. right. split; [reflexivity | exact Hmem]. }
    inversion Hposs.
  - destruct t; [congruence | discriminate Htr].
Qed.

Lemma explicit_treebank_accepted_witness :
  fst (__init__ sample_stanza "lat" (Some "ittb") "INFO"
         {| home := "/home/u";
            files := {[ "/home/u/stanza_resources/la/tokenize/ittb.pt" ]};
            log := [] |})
  = Ok (set_nlp (checked_self fresh_world "lat" "INFO" "la" "ittb")
          (mkPipeline
             (pipeline_args fresh_world
                (checked_self fresh_world "lat" "INFO" "la" "ittb") "la")))
  /\ "ittb" <> ""
  /\ treebank (set_nlp (checked_self fresh_world "lat" "INFO" "la" "ittb")
                 (mkPipeline
                    (pipeline_args fresh_world
                       (checked_self fresh_world "lat" "INFO" "la" "ittb")
                       "la")))
     = Some "ittb".
Proof.
  assert (H : fst (__init__ sample_stanza "lat" (Some "ittb") "INFO"
                     {| home := "/home/u";
                        files := {[ "/home/u/stanza_resources/la/tokenize/ittb.pt" ]};
                        log := [] |})
              = Ok (set_nlp (checked_self fresh_world "lat" "INFO" "la" "ittb")
                      (mkPipeline
                         (pipeline_args fresh_world
                            (checked_self fresh_world "lat" "INFO" "la" "ittb")
                            "la"))))
    by (vm_compute; reflexivity).
  assert (Ht : "ittb" <> "") by discriminate.
  refine (conj H (conj Ht _)).
  exact (proj1 (explicit_treebank_accepted sample_stanza "lat" "ittb" "INFO"
                  _ _ H Ht)).
Defined.

(** X15.  [_download_model] returns normally only when the model file of
    the object exists in the file store it leaves behind. *)
Theorem download_model_returns_with_model (stanza : Stanza)
    (self : StanzaWrapper) (w : World) :
  fst (_download_model stanza self w) = Ok tt ->
  exists path,
    model_path self = Some path
    /\ path ∈ files (snd (_download_model stanza self w)).
Proof.
  destruct (model_path self) as [path |] eqn:Hm.
  - rewrite (download_model_eq stanza self path w Hm). cbv zeta.
    destruct (download stanza (language self) (treebank self) (files w))
      as [fs | e]; [| discriminate].
    destruct (bool_decide (path ∈ fs)) eqn:Hfs; [| discriminate].
    intros _. exists path. split; [reflexivity |].
    cbn [snd files]. exact (bool_decide_eq_true_1 _ Hfs).
  - unfold _download_model.
    repeat (unfold bind at 1; unfold print at 1).
    unfold bind at 1. unfold stanza_download.
    destruct (download stanza (language self) (treebank self) _)
      as [fs | e]; [| discriminate].
    unfold bind at 1. unfold lift at 1. rewrite Hm. discriminate.
Qed.

Lemma download_model_returns_with_model_witness :
  fst (_download_model sample_stanza
         (checked_self fresh_world "grc" "INFO" "grc" "proiel") fresh_world)
  = Ok tt
  /\ exists path,
       model_path (checked_self fresh_world "grc" "INFO" "grc" "proiel")
       = Some path
       /\ path ∈ files (snd (_download_model sample_stanza
                               (checked_self fresh_world "grc" "INFO" "grc"
                                  "proiel") fresh_world)).
Proof.
  assert (H : fst (_download_model sample_stanza
                     (checked_self fresh_world "grc" "INFO" "grc" "proiel")
                     fresh_world) = Ok tt)
    by (vm_compute; reflexivity).
  split; [exact H |].
  exact (download_model_returns_with_model sample_stanza _ fresh_world H).
Defined.

(** ** More on the cache *)

(** The three ways in which [get_nlp] ends. *)
Lemma get_nlp_cases (stanza : Stanza) (a_language : string)
    (a_treebank : option string) (p : Process) :
  (exists r, nlps p !! a_language = Some r
             /\ get_nlp stanza a_language a_treebank p = (Ok r, p))
  \/ (exists e, nlps p !! a_language = None
                /\ fst (__init__ stanza a_language a_treebank "ERROR" (world p))
                   = Raise e
                /\ get_nlp stanza a_language a_treebank p
                   = (Raise e,
                      {| world := snd (__init__ stanza a_language a_treebank
                                         "ERROR" (world p));
                         objects := objects p; nlps := nlps p |}))
  \/ (exists self, nlps p !! a_language = None
                   /\ fst (__init__ stanza a_language a_treebank "ERROR"
                             (world p)) = Ok self
                   /\ get_nlp stanza a_language a_treebank p
                      = (Ok (length (objects p)),
                         {| world := snd (__init__ stanza a_language a_treebank
                                            "ERROR" (world p));
                            objects := objects p ++ [self];
                            nlps := <[a_language := length (objects p)]>
                                      (nlps p) |})).
Proof.
  unfold get_nlp.
  destruct (nlps p !! a_language) as [r |] eqn:Hl.
  - left. eauto.
  - right.
    destruct (__init__ stanza a_language a_treebank "ERROR" (world p))
      as [[self | e] w'].
    + right. exists self. auto.
    + left. exists e. auto.
Qed.

Lemma cache_wf_step (stanza : Stanza) (a_language : string)
    (a_treebank : option string) (p : Process) :
  cache_wf p -> cache_wf (snd (get_nlp stanza a_language a_treebank p)).
Proof.
  intros Hwf.
  destruct (get_nlp_cases stanza a_language a_treebank p)
    as [(r & Hl & ->) | [(e & Hl & Hi & ->) | (self & Hl & Hi & ->)]].
  - exact Hwf.
  - exact Hwf.
  - intros l r. cbn [snd nlps objects]. intros Hlr.
    destruct (decide (a_language = l)) as [<- | Hne].
    + rewrite lookup_insert_eq in Hlr. injection Hlr as <-.
      exists self. split; [apply list_lookup_middle; reflexivity |].
      destruct (init_ok_inv stanza _ _ _ _ self Hi)
        as (code & t & fs & _ & _ & _ & _ & _ & _ & ->).
      split; [reflexivity | eexists; reflexivity].
    + rewrite lookup_insert_ne in Hlr by exact Hne.
      destruct (Hwf l r Hlr) as (s & Hs & Hrest).
      exists s. split; [apply lookup_app_l_Some; exact Hs | exact Hrest].
Qed.

Lemma get_nlp_ok_cached (stanza : Stanza) (a_language : string)
    (a_treebank : option string) (p p1 : Process) (r : ref) :
  get_nlp stanza a_language a_treebank p = (Ok r, p1) ->
  nlps p1 !! a_language = Some r.
Proof.
  intros H.
  destruct (get_nlp_cases stanza a_language a_treebank p)
    as [(r0 & Hl & Heq) | [(e & Hl & Hi & Heq) | (self & Hl & Hi & Heq)]];
    rewrite Heq in H.
  - injection H as <- <-. exact Hl.
  - discriminate.
  - injection H as <- <-. cbn [nlps]. apply lookup_insert_eq.
Qed.

(** X17.  A call of [get_nlp] for a language that is not cached, whose
    construction succeeds, returns a reference that denoted nothing
    before, and afterwards denotes the constructed object and is cached
    under the language. *)
Theorem get_nlp_caches_new_object (stanza : Stanza) (a_language : string)
    (a_treebank : option string) (p : Process) (self : StanzaWrapper) :
  nlps p !! a_language = None ->
  fst (__init__ stanza a_language a_treebank "ERROR" (world p)) = Ok self ->
  exists r,
    fst (get_nlp stanza a_language a_treebank p) = Ok r
    /\ objects p !! r = None
    /\ objects (snd (get_nlp stanza a_language a_treebank p)) !! r = Some self
    /\ nlps (snd (get_nlp stanza a_language a_treebank p)) !! a_language
       = Some r.
Proof.
  intros Hl Hi.
  destruct (get_nlp_cases stanza a_language a_treebank p)
    as [(r0 & Hl' & Heq) | [(e & Hl' & Hi' & Heq) | (s & Hl' & Hi' & Heq)]].
  - congruence.
  - congruence.
  - rewrite Heq. assert (s = self) as -> by congruence.
    exists (length (objects p)). cbn [fst snd objects nlps].
    split; [reflexivity |].
    split; [apply lookup_ge_None_2; lia |].
    split; [apply list_lookup_middle; reflexivity | apply lookup_insert_eq].
Qed.

Lemma get_nlp_caches_new_object_witness :
  nlps fresh_process !! "grc" = None
  /\ fst (__init__ sample_stanza "grc" None "ERROR" (world fresh_process))
     = Ok (set_nlp (checked_self fresh_world "grc" "ERROR" "grc" "proiel")
             (mkPipeline
                (pipeline_args fresh_world
                   (checked_self fresh_world "grc" "ERROR" "grc" "proiel")
                   "grc")))
  /\ exists r,
       fst (get_nlp sample_stanza "grc" None fresh_process) = Ok r
       /\ objects fresh_process !! r = None
       /\ objects (snd (get_nlp sample_stanza "grc" None fresh_process)) !! r
          = Some (set_nlp
                    (checked_self fresh_world "grc" "ERROR" "grc" "proiel")
                    (mkPipeline
                       (pipeline_args fresh_world
                          (checked_self fresh_world "grc" "ERROR" "grc"
                             "proiel") "grc")))
       /\ nlps (snd (get_nlp sample_stanza "grc" None fresh_process)) !! "grc"
          = Some r.
Proof.
  assert (Hl : nlps fresh_process !! "grc" = None) by reflexivity.
  assert (Hi : fst (__init__ sample_stanza "grc" None "ERROR"
                      (world fresh_process))
               = Ok (set_nlp
                       (checked_self fresh_world "grc" "ERROR" "grc" "proiel")
                       (mkPipeline
                          (pipeline_args fresh_world
                             (checked_self fresh_world "grc" "ERROR" "grc"
                                "proiel") "grc"))))
    by (vm_compute; reflexivity).
  refine (conj Hl (conj Hi _)).
  exact (get_nlp_caches_new_object sample_stanza "grc" None fresh_process _
           Hl Hi).
Defined.

(** X18.  [get_nlp] for one language leaves the cache entries of every
    other language alone, and every reference that denoted an object
    before the call denotes the same object after it. *)
Theorem get_nlp_frame (stanza : Stanza) (a_language other : string)
    (a_treebank : option string) (p : Process) :
  other <> a_language ->
  nlps (snd (get_nlp stanza a_language a_treebank p)) !! other
  = nlps p !! other
  /\ (forall r o,
        objects p !! r = Some o ->
        objects (snd (get_nlp stanza a_language a_treebank p)) !! r = Some o).
Proof.
  intros Hne.
  destruct (get_nlp_cases stanza a_language a_treebank p)
    as [(r0 & Hl & ->) | [(e & Hl & Hi & ->) | (s & Hl & Hi & ->)]];
    cbn [snd nlps objects].
  - split; [reflexivity | auto].
  - split; [reflexivity | auto].
  - split; [apply lookup_insert_ne; congruence |].
    intros r o Hr. apply lookup_app_l_Some. exact Hr.
Qed.

Lemma get_nlp_frame_witness :
  "grc" <> "lat"
  /\ nlps (snd (get_nlp sample_stanza "lat" (Some "perseus")
                  (snd (get_nlp sample_stanza "grc" None fresh_process))))
     !! "grc"
     = nlps (snd (get_nlp sample_stanza "grc" None fresh_process)) !! "grc".
Proof.
  assert (H : "grc" <> "lat") by discriminate.
  split; [exact H |].
  exact (proj1 (get_nlp_frame sample_stanza "lat" "grc" (Some "perseus")
                  (snd (get_nlp sample_stanza "grc" None fresh_process)) H)).
Defined.

(** X19.  Starting from an empty cache, after any series of [get_nlp]
    calls, whether they hit, build or fail, every cached reference denotes
    a fully built object whose language is the key it is cached under. *)
Theorem cache_always_wf (stanza : Stanza)
    (calls : list (string * option string)) (w : World) :
  cache_wf (get_nlp_calls stanza calls
              {| world := w; objects := []; nlps := ∅ |}).
Proof.
  assert (Hstart : cache_wf {| world := w; objects := []; nlps := ∅ |}).
  { intros l r Hl. cbn [nlps] in Hl. rewrite lookup_empty in Hl.
    discriminate. }
  revert Hstart. generalize {| world := w; objects := []; nlps := ∅ |}.
  unfold get_nlp_calls.
  induction calls as [| [l t] calls IH]; intros p Hwf.
  - exact Hwf.
  - cbn [fold_left fst snd]. apply IH. apply cache_wf_step. exact Hwf.
Qed.

(** X20.  In a well-formed cache, objects obtained for two different
    languages are different objects, and the first one is still what
    [get_nlp] returns for its language after the second was obtained. *)
Theorem distinct_languages_distinct_objects (stanza : Stanza)
    (l1 l2 : string) (t1 t2 : option string) (p p1 p2 : Process)
    (r1 r2 : ref) :
  cache_wf p ->
  get_nlp stanza l1 t1 p = (Ok r1, p1) ->
  get_nlp stanza l2 t2 p1 = (Ok r2, p2) ->
  l1 <> l2 ->
  r1 <> r2 /\ (forall t, get_nlp stanza l1 t p2 = (Ok r1, p2)).
Proof.
  intros Hwf H1 H2 Hne.
  assert (Hwf1 : cache_wf p1).
  { replace p1 with (snd (get_nlp stanza l1 t1 p)) by (rewrite H1; reflexivity).
    apply cache_wf_step. exact Hwf. }
  pose proof (get_nlp_ok_cached stanza l1 t1 p p1 r1 H1) as Hc1.
  destruct (Hwf1 l1 r1 Hc1) as (s1 & Hs1 & Hlang1 & _).
  destruct (get_nlp_cases stanza l2 t2 p1)
    as [(r0 & Hl & Heq) | [(e & Hl & Hi & Heq) | (s & Hl & Hi & Heq)]];
    rewrite Heq in H2.
  - injection H2 as <- <-.
    destruct (Hwf1 l2 r0 Hl) as (s2 & Hs2 & Hlang2 & _).
    split.
    + intros ->. congruence.
    + intros t. unfold get_nlp. rewrite Hc1. reflexivity.
  - discriminate.
  - injection H2 as <- <-. split.
    + apply lookup_lt_Some in Hs1. lia.
    + intros t. unfold get_nlp. cbn [nlps].
      rewrite lookup_insert_ne by congruence. rewrite Hc1. reflexivity.
Qed.

Lemma distinct_languages_distinct_objects_witness :
  cache_wf fresh_process
  /\ get_nlp sample_stanza "grc" None fresh_process
     = (Ok 0, snd (get_nlp sample_stanza "grc" None fresh_process))
  /\ get_nlp sample_stanza "fro" None
       (snd (get_nlp sample_stanza "grc" None fresh_process))
     = (Ok 1,
        snd (get_nlp sample_stanza "fro" None
               (snd (get_nlp sample_stanza "grc" None fresh_process))))
  /\ "grc" <> "fro"
  /\ 0 <> 1.
Proof.
  assert (Hwf : cache_wf fresh_process).
  { intros l r Hl. cbn in Hl. rewrite lookup_empty in Hl. discriminate. }
  assert (H1 : get_nlp sample_stanza "grc" None fresh_process
               = (Ok 0, snd (get_nlp sample_stanza "grc" None fresh_process)))
    by (vm_compute; reflexivity).
  assert (H2 : get_nlp sample_stanza "fro" None
                 (snd (get_nlp sample_stanza "grc" None fresh_process))
               = (Ok 1,
                  snd (get_nlp sample_stanza "fro" None
                         (snd (get_nlp sample_stanza "grc" None
                                 fresh_process)))))
    by (vm_compute; reflexivity).
  assert (Hne : "grc" <> "fro") by discriminate.
  refine (conj Hwf (conj H1 (conj H2 (conj Hne _)))).
  exact (proj1 (distinct_languages_distinct_objects sample_stanza "grc" "fro"
                  None None fresh_process _ _ 0 1 Hwf H1 H2 Hne)).
Defined.

(** X21.  The treebank of a cached language is the one resolved by the
    call that built the object: a later [get_nlp] for the same language
    returns that object whatever treebank it asks for, valid or not. *)
Theorem later_variant_ignored (stanza : Stanza) (a_language : string)
    (t1 : option string) (code t : string) (p p1 : Process) (r : ref) :
  nlps p !! a_language = None ->
  Validated stanza a_language t1 code t ->
  get_nlp stanza a_language t1 p = (Ok r, p1) ->
  forall t2,
    get_nlp stanza a_language t2 p1 = (Ok r, p1)
    /\ exists self, objects p1 !! r = Some self /\ treebank self = Some t.
Proof.
  intros Hl Hv H t2.
  destruct (get_nlp_cases stanza a_language t1 p)
    as [(r0 & Hl' & Heq) | [(e & Hl' & Hi & Heq) | (s & Hl' & Hi & Heq)]];
    rewrite Heq in H.
  - congruence.
  - discriminate.
  - injection H as <- <-. split.
    + unfold get_nlp. cbn [nlps]. rewrite lookup_insert_eq. reflexivity.
    + exists s. cbn [objects].
      split; [apply list_lookup_middle; reflexivity |].
      destruct (init_validated_shape stanza a_language t1 "ERROR" code t
                  (world p) Hv) as [_ Hok].
      destruct (Hok s Hi) as [args ->]. reflexivity.
Qed.

Lemma later_variant_ignored_witness :
  nlps fresh_process !! "grc" = None
  /\ Validated sample_stanza "grc" None "grc" "proiel"
  /\ get_nlp sample_stanza "grc" None fresh_process
     = (Ok 0, snd (get_nlp sample_stanza "grc" None fresh_process))
  /\ get_nlp sample_stanza "grc" (Some "perseus")
       (snd (get_nlp sample_stanza "grc" None fresh_process))
     = (Ok 0, snd (get_nlp sample_stanza "grc" None fresh_process))
  /\ exists self,
       objects (snd (get_nlp sample_stanza "grc" None fresh_process)) !! 0
       = Some self
       /\ treebank self = Some "proiel".
Proof.
  assert (Hl : nlps fresh_process !! "grc" = None) by reflexivity.
  assert (Hv : Validated sample_stanza "grc" None "grc" "proiel").
  { apply (validated_default sample_stanza "grc" "Ancient_Greek" "grc" None
             "proiel"); reflexivity. }
  assert (H : get_nlp sample_stanza "grc" None fresh_process
              = (Ok 0, snd (get_nlp sample_stanza "grc" None fresh_process)))
    by (vm_compute; reflexivity).
  refine (conj Hl (conj Hv (conj H _))).
  exact (later_variant_ignored sample_stanza "grc" None "grc" "proiel"
           fresh_process _ 0 Hl Hv H (Some "perseus")).
Defined.

(** ** Parsing with a constructed object *)

(** X22.  [parse] on an object returned by the constructor never fails on
    the object itself: it is exactly the call of the object's pipeline on
    the text, with the same result and the same effects. *)
Theorem parse_delegates {Document : Type}
    (call_pipeline : PipelineObj -> string -> M Document) (stanza : Stanza)
    (a_language : string) (a_treebank : option string) (lvl : string)
    (w : World) (self : StanzaWrapper) (text : string) (w' : World) :
  fst (__init__ stanza a_language a_treebank lvl w) = Ok self ->
  exists pipeline,
    nlp self = Some pipeline
    /\ parse call_pipeline self text w' = call_pipeline pipeline text w'.
Proof.
  intros Hs.
  destruct (init_ok_inv stanza _ _ lvl w self Hs)
    as (code & t & fs & _ & _ & _ & _ & _ & _ & ->).
  eexists. split; [reflexivity |].
  unfold parse, bind, lift, ret. cbn [nlp set_nlp attr].
  destruct (call_pipeline _ text w') as [[d | e] w'']; reflexivity.
Qed.

Lemma parse_delegates_witness :
  fst (__init__ sample_stanza "fro" None "INFO" fresh_world)
  = Ok (set_nlp (checked_self fresh_world "fro" "INFO" "fro" "srcmf")
          (mkPipeline
             (pipeline_args fresh_world
                (checked_self fresh_world "fro" "INFO" "fro" "srcmf") "fro")))
  /\ exists pipeline,
       nlp (set_nlp (checked_self fresh_world "fro" "INFO" "fro" "srcmf")
              (mkPipeline
                 (pipeline_args fresh_world
                    (checked_self fresh_world "fro" "INFO" "fro" "srcmf")
                    "fro")))
       = Some pipeline
       /\ parse sample_call
            (set_nlp (checked_self fresh_world "fro" "INFO" "fro" "srcmf")
               (mkPipeline
                  (pipeline_args fresh_world
                     (checked_self fresh_world "fro" "INFO" "fro" "srcmf")
                     "fro")))
            "Quant vit le roi" fresh_world
          = sample_call pipeline "Quant vit le roi" fresh_world.
Proof.
  assert (H : fst (__init__ sample_stanza "fro" None "INFO" fresh_world)
              = Ok (set_nlp
                      (checked_self fresh_world "fro" "INFO" "fro" "srcmf")
                      (mkPipeline
                         (pipeline_args fresh_world
                            (checked_self fresh_world "fro" "INFO" "fro"
                               "srcmf") "fro"))))
    by (vm_compute; reflexivity).
  split; [exact H |].
  exact (parse_delegates sample_call sample_stanza "fro" None "INFO"
           fresh_world _ "Quant vit le roi" fresh_world H).
Defined.
